(** * shinwa_agent.config.settings: settings resolution and the settings singleton

    Shallow embedding of [backend/src/shinwa_agent/config/settings.py]:
    the [Settings] class (its fields, their annotations and defaults, its
    [model_config]), the module global [_settings] and the two functions
    [get_settings] and [reload_settings].

    Python objects have identity, so instances live in a heap and the
    functions return references.  Exceptions are results; a raising call
    keeps whatever state it had reached. *)

From Stdlib Require Import ZArith String Ascii List.
From stdpp Require Import base option list strings gmap fin_maps.

Local Open Scope Z_scope.

(* ===================================================================== *)
(** ** The Settings class: fields, annotations, defaults                 *)
(* ===================================================================== *)

(** An instance of [Settings]: one attribute per annotated class field. *)
Record Settings := mkSettings {
  api_host : string;
  api_port : Z;
  cors_origins : list string;
  database_url : string;
  redis_url : string;
  openai_api_key : string;
  openai_base_url : string;
  openai_model : string;
  secret_key : string;
  sandbox_root : string;
  proactive_mode : string;
  max_frequency_per_hour : Z;
  cooldown_minutes : Z;
  dnd_hours : list Z;
  log_level : string;
  structured_logging : bool
}.

(** The field names of the class, as a finite type. *)
Inductive field :=
  | F_api_host | F_api_port | F_cors_origins | F_database_url | F_redis_url
  | F_openai_api_key | F_openai_base_url | F_openai_model | F_secret_key
  | F_sandbox_root | F_proactive_mode | F_max_frequency_per_hour
  | F_cooldown_minutes | F_dnd_hours | F_log_level | F_structured_logging.

#[global] Instance field_eq_dec : EqDecision field.
Proof. solve_decision. Defined.

(** [Settings.model_fields], in declaration order. *)
Definition model_fields : list field :=
  [ F_api_host; F_api_port; F_cors_origins; F_database_url; F_redis_url;
    F_openai_api_key; F_openai_base_url; F_openai_model; F_secret_key;
    F_sandbox_root; F_proactive_mode; F_max_frequency_per_hour;
    F_cooldown_minutes; F_dnd_hours; F_log_level; F_structured_logging ].
Arguments model_fields : simpl never.

Definition field_name (f : field) : string :=
  match f with
  | F_api_host => "api_host"
  | F_api_port => "api_port"
  | F_cors_origins => "cors_origins"
  | F_database_url => "database_url"
  | F_redis_url => "redis_url"
  | F_openai_api_key => "openai_api_key"
  | F_openai_base_url => "openai_base_url"
  | F_openai_model => "openai_model"
  | F_secret_key => "secret_key"
  | F_sandbox_root => "sandbox_root"
  | F_proactive_mode => "proactive_mode"
  | F_max_frequency_per_hour => "max_frequency_per_hour"
  | F_cooldown_minutes => "cooldown_minutes"
  | F_dnd_hours => "dnd_hours"
  | F_log_level => "log_level"
  | F_structured_logging => "structured_logging"
  end%string.

(** The annotations that occur in the class: [str], [int], [bool],
    [List[str]] and [List[int]]. *)
Inductive annot := TStr | TInt | TBool | TListStr | TListInt.

Definition annotation (f : field) : annot :=
  match f with
  | F_api_port | F_max_frequency_per_hour | F_cooldown_minutes => TInt
  | F_cors_origins => TListStr
  | F_dnd_hours => TListInt
  | F_structured_logging => TBool
  | _ => TStr
  end.

(** A field value, tagged with the annotation it inhabits. *)
Inductive value :=
  | VStr (s : string)
  | VInt (z : Z)
  | VBool (b : bool)
  | VListStr (l : list string)
  | VListInt (l : list Z).

(** [getattr(settings, field_name)]. *)
Definition get_field (f : field) (s : Settings) : value :=
  match f with
  | F_api_host => VStr (api_host s)
  | F_api_port => VInt (api_port s)
  | F_cors_origins => VListStr (cors_origins s)
  | F_database_url => VStr (database_url s)
  | F_redis_url => VStr (redis_url s)
  | F_openai_api_key => VStr (openai_api_key s)
  | F_openai_base_url => VStr (openai_base_url s)
  | F_openai_model => VStr (openai_model s)
  | F_secret_key => VStr (secret_key s)
  | F_sandbox_root => VStr (sandbox_root s)
  | F_proactive_mode => VStr (proactive_mode s)
  | F_max_frequency_per_hour => VInt (max_frequency_per_hour s)
  | F_cooldown_minutes => VInt (cooldown_minutes s)
  | F_dnd_hours => VListInt (dnd_hours s)
  | F_log_level => VStr (log_level s)
  | F_structured_logging => VBool (structured_logging s)
  end.

(** The values an annotation admits. *)
Definition has_type (t : annot) (v : value) : bool :=
  match t, v with
  | TStr, VStr _ | TInt, VInt _ | TBool, VBool _
  | TListStr, VListStr _ | TListInt, VListInt _ => true
  | _, _ => false
  end.

(** The process environment [os.environ], as its items in iteration
    order.  A name bound twice reads as its last binding. *)
Definition environ := list (string * string).

(** The dictionary a sequence of items builds: later items overwrite
    earlier ones; [norm] is applied to each key on the way in. *)
Definition dict_of (norm : string → string) (items : list (string * string))
  : gmap string string :=
  foldl (λ m kv, <[norm kv.1 := kv.2]> m) ∅ items.

(** [os.getenv(key, default)]. *)
Definition getenv (env : environ) (key dflt : string) : string :=
  default dflt (dict_of id env !! key).

(** The right-hand sides of the class body, evaluated once, when the class
    statement runs at import time, in the environment [env0] of that
    moment.  Two of them call [os.getenv]; the others are literals. *)
Definition class_defaults (env0 : environ) : Settings :=
  {| api_host := "0.0.0.0";
     api_port := 8000;
     cors_origins := ["http://localhost:3000"; "http://127.0.0.1:3000"]%string;
     database_url := "sqlite:///./shinwa_agent.db";
     redis_url := "redis://localhost:6379/0";
     openai_api_key := getenv env0 "OPENAI_API_KEY" EmptyString;
     openai_base_url := getenv env0 "OPENAI_BASE_URL" EmptyString;
     openai_model := "gpt-4.1-mini";
     secret_key := "dev-secret-key-change-in-production";
     sandbox_root := "/workspace";
     proactive_mode := "reactive";
     max_frequency_per_hour := 3;
     cooldown_minutes := 15;
     dnd_hours := [22; 23; 0; 1; 2; 3; 4; 5; 6];
     log_level := "INFO";
     structured_logging := true |}.

(** [model_config = SettingsConfigDict(...)]. *)
Inductive extra_policy := ExtraIgnore | ExtraAllow | ExtraForbid.

Record SettingsConfigDict := {
  env_file : string;
  env_file_encoding : string;
  case_sensitive : bool;
  extra : extra_policy
}.

Definition model_config : SettingsConfigDict :=
  {| env_file := ".env";
     env_file_encoding := "utf-8";
     case_sensitive := false;
     extra := ExtraIgnore |}.

(* ===================================================================== *)
(** ** Exceptions, the heap of instances and the module global           *)
(* ===================================================================== *)

(** The two sources [BaseSettings] consults under this [model_config]. *)
Inductive source := EnvSettingsSource | DotEnvSettingsSource.

(** What constructing an instance can raise: a source that cannot decode
    the value of a field, or validation rejecting the listed fields. *)
Inductive error :=
  | SettingsError (src : source) (f : field)
  | ValidationError (fs : list field).

Inductive result (A : Type) :=
  | Ok (a : A)
  | Raise (e : error).
Arguments Ok {A} a.
Arguments Raise {A} e.

(** What a call can read from outside the program at the moment it runs:
    the process environment, and the bindings of the file [.env] in the
    working directory when there is one. *)
Record world := {
  os_environ : environ;
  dotenv : option (list (string * string))
}.

(** A reference to an instance; [is] on instances is equality of references. *)
Definition ref := nat.

(** The state of the module: the instances created so far, and the global
    [_settings : Settings | None]. *)
Record state := {
  heap : list Settings;
  _settings : option ref
}.

(** The state right after [_settings: Settings | None = None] has run. *)
Definition module_loaded : state := {| heap := []; _settings := None |}.

(** Computations that read and write the state and may raise. *)
Definition M (A : Type) : Type := state → result A * state.

Definition ret {A} (a : A) : M A := λ st, (Ok a, st).

Definition bind {A B} (m : M A) (k : A → M B) : M B :=
  λ st, match m st with
        | (Ok a, st') => k a st'
        | (Raise e, st') => (Raise e, st')
        end.

Notation "'do' x <- m ; k" := (bind m (λ x, k))
  (at level 10, x name, m at level 100, k at level 200).
Notation "'run' m ; k" := (bind m (λ _, k))
  (at level 10, m at level 100, k at level 200).

Definition raise {A} (e : error) : M A := λ st, (Raise e, st).

Definition read_global : M (option ref) := λ st, (Ok (_settings st), st).

Definition write_global (v : option ref) : M unit :=
  λ st, (Ok tt, {| heap := heap st; _settings := v |}).

(** A new object holding [s]; its reference was never handed out before. *)
Definition new_instance (s : Settings) : M ref :=
  λ st, (Ok (length (heap st)),
         {| heap := heap st ++ [s]; _settings := _settings st |}).

(** The instance a reference points to. *)
Definition deref (st : state) (r : ref) : option Settings := heap st !! r.

Section Singleton.

(** [Settings.__init__]: what the class computes from the outside world,
    or the exception it raises. *)
Variable init : world → result Settings.

(** The call [Settings()]. *)
Definition Settings_call (w : world) : M ref :=
  match init w with
  | Ok s => new_instance s
  | Raise e => raise e
  end.

(** [get_settings]:
<<
      global _settings
      if _settings is None:
          _settings = Settings()
      return _settings
>> *)
Definition get_settings (w : world) : M (option ref) :=
  do cur <- read_global;
  run match cur with
      | None => do r <- Settings_call w; write_global (Some r)
      | Some _ => ret tt
      end;
  read_global.

(** [reload_settings]:
<<
      global _settings
      _settings = Settings()
      return _settings
>> *)
Definition reload_settings (w : world) : M (option ref) :=
  do r <- Settings_call w;
  run write_global (Some r);
  read_global.

(** The calls a client can make on the module. *)
Inductive call := GetSettings | ReloadSettings.

Definition run_call (c : call) : world → M (option ref) :=
  match c with
  | GetSettings => get_settings
  | ReloadSettings => reload_settings
  end.

(** A client making calls one after the other, each in the world of its
    moment, and going on after an exception. *)
Fixpoint run_calls (cs : list (call * world)) (st : state)
  : list (result (option ref)) * state :=
  match cs with
  | [] => ([], st)
  | (c, w) :: cs' =>
      let '(r, st1) := run_call c w st in
      let '(rs, st2) := run_calls cs' st1 in
      (r :: rs, st2)
  end.

End Singleton.

(** The instance a call handed back, looked up in the state it left. *)
Definition returned_instance (out : result (option ref) * state)
  : option Settings :=
  match out.1 with
  | Ok (Some r) => deref out.2 r
  | _ => None
  end.

(* ===================================================================== *)
(** ** main.py: the application module                                    *)
(* ===================================================================== *)

(** The keyword arguments [app.add_middleware(CORSMiddleware, ...)] is
    given. *)
Record CORSMiddleware := {
  allow_origins : list string;
  allow_credentials : bool;
  allow_methods : list string;
  allow_headers : list string
}.

(** A JSON object with string members, as the two endpoints return. *)
Definition json_object := list (string * string).

(** [root()] and [health()]. *)
Definition root : json_object :=
  [("message", "Shinwa Agent API"); ("version", "0.1.0");
   ("status", "running")]%string.

Definition health : json_object :=
  [("status", "healthy"); ("service", "shinwa-agent")]%string.

(** What the module puts into the [FastAPI] object: the constructor
    arguments, the middleware added, and the GET routes its decorators
    register, in order. *)
Record FastAPI := {
  title : string;
  description : string;
  version : string;
  user_middleware : list CORSMiddleware;
  routes : list (string * json_object)
}.

(** The globals of [main] once the module body has run: [settings] holds
    what [get_settings()] returned. *)
Record main_globals := {
  settings : option ref;
  app : FastAPI
}.

(** The arguments of [uvicorn.run] in the [__main__] block. *)
Record uvicorn_run := {
  uvicorn_app : string;
  host : string;
  port : Z;
  reload : bool
}.

(** What the module body can raise: what the constructor raised, or an
    attribute read on something that is no instance. *)
Inductive main_error :=
  | ConstructionError (e : error)
  | AttributeError.

Inductive outcome (A : Type) :=
  | Done (a : A)
  | Failed (e : main_error).
Arguments Done {A} a.
Arguments Failed {A} e.

(** [v.attr] for the Python value [v] of a global of type
    [Settings | None]. *)
Definition getattr {A} (st : state) (v : option ref) (attr : Settings → A)
  : option A :=
  r ← v; attr <$> deref st r.

Section MainModule.

Variable init : world → result Settings.

(** The module body:
<<
      settings = get_settings()
      app = FastAPI(title=..., description=..., version=..., lifespan=lifespan)
      app.add_middleware(CORSMiddleware, allow_origins=settings.cors_origins,
                         allow_credentials=True, allow_methods=["*"],
                         allow_headers=["*"])
      @app.get("/") ...  @app.get("/health") ...
>> *)
Definition import_main (w : world) (st : state)
  : outcome main_globals * state :=
  match get_settings init w st with
  | (Raise e, st') => (Failed (ConstructionError e), st')
  | (Ok v, st') =>
      match getattr st' v cors_origins with
      | None => (Failed AttributeError, st')
      | Some origins =>
          (Done {| settings := v;
                   app := {| title := "Shinwa Agent API";
                             description := "Autonomous AI Agent Backend";
                             version := "0.1.0";
                             user_middleware :=
                               [ {| allow_origins := origins;
                                    allow_credentials := true;
                                    allow_methods := ["*"%string];
                                    allow_headers := ["*"%string] |} ];
                             routes := [("/", root); ("/health", health)]%string
                          |} |},
           st')
      end
  end.

(** The [__main__] block:
<<
      uvicorn.run("shinwa_agent.main:app", host=settings.api_host,
                  port=settings.api_port, reload=True)
>>
    [None] stands for the attribute read failing. *)
Definition run_main (m : main_globals) (st : state) : option uvicorn_run :=
  h ← getattr st (settings m) api_host;
  p ← getattr st (settings m) api_port;
  Some {| uvicorn_app := "shinwa_agent.main:app";
          host := h; port := p; reload := true |}.

End MainModule.

(* ===================================================================== *)
(** ** Settings(): resolving the fields                                   *)
(* ===================================================================== *)

(** [str.lower] on the ASCII letters; other bytes are left as they are. *)
Definition lower_ascii (c : ascii) : ascii :=
  let n := N_of_ascii c in
  if ((65 <=? n) && (n <=? 90))%N then ascii_of_N (n + 32) else c.

Fixpoint lower (s : string) : string :=
  match s with
  | EmptyString => EmptyString
  | String c s' => String (lower_ascii c) (lower s')
  end.

(** The conversions that pydantic applies and that the repository only
    selects through its annotations: decoding the JSON text of a list-typed
    field into a Python value, and lax-mode validation into [int], [bool],
    [List[str]] and [List[int]].  [None] is a rejected input.  The
    development holds for every choice of them. *)
Class Coercions := {
  pyobj : Type;
  json_loads : string → option pyobj;
  validate_int : string → option Z;
  validate_bool : string → option bool;
  validate_str_list : pyobj → option (list string);
  validate_int_list : pyobj → option (list Z)
}.

Section Resolution.

Context {C : Coercions}.

(** What a source hands to validation for a key: the text as it was
    read, or, for a list-typed field, the decoded Python value. *)
Inductive raw :=
  | RStr (s : string)
  | RObj (o : pyobj).

(** Modelled from the spec: [parse_env_vars] of pydantic-settings, which
    is not part of the repository; with [case_sensitive=False] every key
    is matched case-insensitively, here by lowering it. *)
Definition parse_env_vars (items : list (string * string))
  : gmap string string :=
  dict_of lower items.

(** The key under which a source looks a field up: the field name, lowered
    since [case_sensitive=False]; there is no prefix and no alias. *)
Definition env_name (f : field) : string := lower (field_name f).

Definition field_is_complex (f : field) : bool :=
  match annotation f with
  | TListStr | TListInt => true
  | _ => false
  end.

(** Modelled from the spec: [prepare_field_value] of pydantic-settings, not
    part of the repository; a list-typed field is decoded by the source
    itself, the text of any other field is passed on as it is. *)
Definition prepare_field_value (f : field) (v : string) : option raw :=
  if field_is_complex f then RObj <$> json_loads v else Some (RStr v).

(** Modelled from the spec: the loop over [model_fields] by which a source
    of pydantic-settings (not part of the repository) collects the fields
    it has a value for. *)
Fixpoint collect (src : source) (vars : gmap string string)
    (fs : list field) (data : gmap string raw) : result (gmap string raw) :=
  match fs with
  | [] => Ok data
  | f :: fs' =>
      match vars !! env_name f with
      | None => collect src vars fs' data
      | Some v =>
          match prepare_field_value f v with
          | None => Raise (SettingsError src f)
          | Some r => collect src vars fs' (<[field_name f := r]> data)
          end
      end
  end.

(** Modelled from the spec: the environment source of pydantic-settings
    (not part of the repository) over the live process environment. *)
Definition env_settings (env : environ) : result (gmap string raw) :=
  collect EnvSettingsSource (parse_env_vars env) model_fields ∅.

(** The keys of a file that name a field. *)
Definition names_a_field (k : string) : Prop :=
  k ∈ (env_name <$> model_fields).

(** Modelled from the spec: the file source of pydantic-settings (not part
    of the repository) over the bindings of [env_file]: no file gives no
    values; the fields are collected as from the environment; the
    remaining non-empty bindings are kept as extra keys. *)
Definition dotenv_settings (file : option (list (string * string)))
  : result (gmap string raw) :=
  let vars := from_option parse_env_vars ∅ file in
  match collect DotEnvSettingsSource vars model_fields ∅ with
  | Raise e => Raise e
  | Ok data =>
      Ok (data ∪
          (RStr <$> filter (λ kv, kv.2 ≠ EmptyString ∧ ¬ names_a_field kv.1) vars))
  end.

(** Modelled from the spec: lax validation of one input against an
    annotation, by pydantic, which is not part of the repository. *)
Definition coerce (t : annot) (r : raw) : option value :=
  match t, r with
  | TStr, RStr s => Some (VStr s)
  | TInt, RStr s => VInt <$> validate_int s
  | TBool, RStr s => VBool <$> validate_bool s
  | TListStr, RObj o => VListStr <$> validate_str_list o
  | TListInt, RObj o => VListInt <$> validate_int_list o
  | _, _ => None
  end.

(** Modelled from the spec: a field that has an input is validated, a
    field without one takes the class default; keys that name no field
    are never looked at ([extra="ignore"]). *)
Definition validate_field (dflt : Settings) (data : gmap string raw)
    (f : field) : option value :=
  match data !! field_name f with
  | None => Some (get_field f dflt)
  | Some r => coerce (annotation f) r
  end.

Definition as_str (v : value) : option string :=
  match v with VStr s => Some s | _ => None end.
Definition as_int (v : value) : option Z :=
  match v with VInt z => Some z | _ => None end.
Definition as_bool (v : value) : option bool :=
  match v with VBool b => Some b | _ => None end.
Definition as_str_list (v : value) : option (list string) :=
  match v with VListStr l => Some l | _ => None end.
Definition as_int_list (v : value) : option (list Z) :=
  match v with VListInt l => Some l | _ => None end.

(** The instance whose attributes are the validated values. *)
Definition build (g : field → option value) : option Settings :=
  a1 ← g F_api_host ≫= as_str;
  a2 ← g F_api_port ≫= as_int;
  a3 ← g F_cors_origins ≫= as_str_list;
  a4 ← g F_database_url ≫= as_str;
  a5 ← g F_redis_url ≫= as_str;
  a6 ← g F_openai_api_key ≫= as_str;
  a7 ← g F_openai_base_url ≫= as_str;
  a8 ← g F_openai_model ≫= as_str;
  a9 ← g F_secret_key ≫= as_str;
  a10 ← g F_sandbox_root ≫= as_str;
  a11 ← g F_proactive_mode ≫= as_str;
  a12 ← g F_max_frequency_per_hour ≫= as_int;
  a13 ← g F_cooldown_minutes ≫= as_int;
  a14 ← g F_dnd_hours ≫= as_int_list;
  a15 ← g F_log_level ≫= as_str;
  a16 ← g F_structured_logging ≫= as_bool;
  Some (mkSettings a1 a2 a3 a4 a5 a6 a7 a8 a9 a10 a11 a12 a13 a14 a15 a16).

(** Modelled from the spec: validation of the merged inputs; it raises
    one error naming every rejected field. *)
Definition model_validate (dflt : Settings) (data : gmap string raw)
  : result Settings :=
  match build (validate_field dflt data) with
  | Some s => Ok s
  | None =>
      Raise (ValidationError
               (filter (λ f, validate_field dflt data f = None) model_fields))
  end.

(** Modelled from the spec: [Settings.__init__], inherited from
    [BaseSettings] (pydantic-settings, not part of the repository), as
    configured by [model_config]: the environment source and the file
    source are run, their results merged with the environment on top, and
    the merge validated over the class defaults. *)
Definition Settings_init (env0 : environ) (w : world) : result Settings :=
  match env_settings (os_environ w) with
  | Raise e => Raise e
  | Ok env_state =>
      match dotenv_settings (dotenv w) with
      | Raise e => Raise e
      | Ok file_state =>
          model_validate (class_defaults env0) (env_state ∪ file_state)
      end
  end.

(** What the live environment, and what the file, binds a field to. *)
Definition env_lookup (w : world) (f : field) : option string :=
  parse_env_vars (os_environ w) !! env_name f.

Definition file_lookup (w : world) (f : field) : option string :=
  from_option parse_env_vars ∅ (dotenv w) !! env_name f.

(** What reaches validation for a field: the value the environment source
    prepared, else the one the file source prepared. *)
Definition raw_input (w : world) (f : field) : option raw :=
  (env_lookup w f ≫= prepare_field_value f)
    ∪ (file_lookup w f ≫= prepare_field_value f).

(** The value an input text stands for in a field, if it stands for one. *)
Definition coerce_text (f : field) (v : string) : option value :=
  prepare_field_value f v ≫= coerce (annotation f).

Definition accepts (f : field) (o : option string) : bool :=
  match o with
  | None => true
  | Some v => bool_decide (is_Some (coerce_text f v))
  end.

(** Every text that the environment or the file binds a field to can be
    coerced to the annotation of that field. *)
Definition acceptable (w : world) : bool :=
  forallb (λ f, accepts f (env_lookup w f) && accepts f (file_lookup w f))
          model_fields.

End Resolution.

(* ===================================================================== *)
(** ** One instance of the conversions, to run the model on inputs        *)
(* ===================================================================== *)

(** Decimal integers with an optional sign; the twelve boolean words;
    JSON arrays, without nesting, of integers and of strings that have no
    escape sequence. *)
Module Sample.

Definition digit (c : ascii) : option Z :=
  let n := N_of_ascii c in
  if ((48 <=? n) && (n <=? 57))%N then Some (Z.of_N (n - 48)) else None.

Fixpoint digits (acc : Z) (s : string) : option Z :=
  match s with
  | EmptyString => Some acc
  | String c s' =>
      match digit c with
      | Some d => digits (10 * acc + d) s'
      | None => None
      end
  end.

Definition int_of_string (s : string) : option Z :=
  match s with
  | EmptyString => None
  | String "-" (String c s' as t) => Z.opp <$> digits 0 t
  | String "+" (String c s' as t) => digits 0 t
  | _ => digits 0 s
  end.

Definition bool_of_string (s : string) : option bool :=
  let w := lower s in
  if bool_decide (w ∈ ["1"; "on"; "t"; "true"; "y"; "yes"]%string) then Some true
  else if bool_decide (w ∈ ["0"; "off"; "f"; "false"; "n"; "no"]%string) then Some false
  else None.

Inductive scalar := SStr (s : string) | SInt (z : Z).
Inductive json := JScalar (x : scalar) | JArray (xs : list scalar).

Inductive token := LBracket | RBracket | Comma | Atom (x : scalar).

Definition dquote : ascii := ascii_of_N 34.
Definition backslash : ascii := ascii_of_N 92.

Definition is_space (c : ascii) : bool :=
  bool_decide (c ∈ [" "; "009"; "010"; "013"]%char).

Definition is_number_char (c : ascii) : bool :=
  bool_decide (c = "-"%char) || bool_decide (is_Some (digit c)).

(** The text up to the closing quote, and what follows it. *)
Fixpoint until_quote (s : string) : option (string * string) :=
  match s with
  | EmptyString => None
  | String c s' =>
      if bool_decide (c = dquote) then Some (EmptyString, s')
      else if bool_decide (c = backslash) then None
      else '(a, rest) ← until_quote s'; Some (String c a, rest)
  end.

(** The longest prefix of number characters, and what follows it. *)
Fixpoint span_number (s : string) : string * string :=
  match s with
  | EmptyString => (EmptyString, EmptyString)
  | String c s' =>
      if is_number_char c
      then let '(a, rest) := span_number s' in (String c a, rest)
      else (EmptyString, s)
  end.

Fixpoint lex (fuel : nat) (s : string) : option (list token) :=
  match fuel with
  | O => None
  | S fuel' =>
      match s with
      | EmptyString => Some []
      | String c s' =>
          if is_space c then lex fuel' s'
          else if bool_decide (c = "["%char) then (LBracket ::.) <$> lex fuel' s'
          else if bool_decide (c = "]"%char) then (RBracket ::.) <$> lex fuel' s'
          else if bool_decide (c = ","%char) then (Comma ::.) <$> lex fuel' s'
          else if bool_decide (c = dquote) then
            '(a, rest) ← until_quote s';
            (Atom (SStr a) ::.) <$> lex fuel' rest
          else if is_number_char c then
            let '(a, rest) := span_number s in
            z ← int_of_string a;
            (Atom (SInt z) ::.) <$> lex fuel' rest
          else None
      end
  end.

(** The items after an opening bracket, up to the closing one. *)
Fixpoint items (ts : list token) : option (list scalar) :=
  match ts with
  | [Atom x; RBracket] => Some [x]
  | Atom x :: Comma :: ts' => (x ::.) <$> items ts'
  | _ => None
  end.

Definition loads (s : string) : option json :=
  ts ← lex (S (String.length s)) s;
  match ts with
  | [Atom x] => Some (JScalar x)
  | [LBracket; RBracket] => Some (JArray [])
  | LBracket :: ts' => JArray <$> items ts'
  | _ => None
  end.

Definition str_list (o : json) : option (list string) :=
  match o with
  | JArray xs => mapM (λ x, match x with SStr s => Some s | SInt _ => None end) xs
  | JScalar _ => None
  end.

Definition int_list (o : json) : option (list Z) :=
  match o with
  | JArray xs => mapM (λ x, match x with SInt z => Some z | SStr s => int_of_string s end) xs
  | JScalar _ => None
  end.

Definition coercions : Coercions :=
  {| pyobj := json;
     json_loads := loads;
     validate_int := int_of_string;
     validate_bool := bool_of_string;
     validate_str_list := str_list;
     validate_int_list := int_list |}.

(** The environment at import time, three worlds, and the class called
    in them. *)
Definition env0 : environ :=
  [("HOME", "/root"); ("OPENAI_API_KEY", "sk-test")]%string.

Definition w_plain : world :=
  {| os_environ := [("HOME", "/root")]%string; dotenv := None |}.

Definition w_env_and_file : world :=
  {| os_environ := [("HOME", "/root"); ("API_PORT", "9001")]%string;
     dotenv := Some [("api_port", "8080"); ("Log_Level", "debug");
                     ("DND_HOURS", "[1, 2]")]%string |}.

Definition w_bad : world :=
  {| os_environ := [("API_PORT", "not_an_integer")]%string; dotenv := None |}.

Definition init : world → result Settings := @Settings_init coercions env0.

End Sample.

(* ===================================================================== *)
(** ** The singleton: caching, reloading, failure                         *)
(* ===================================================================== *)

(** The cached reference, when there is one, points to an instance. *)
Definition cache_valid (st : state) : Prop :=
  ∀ r, _settings st = Some r → is_Some (deref st r).

Lemma module_loaded_valid : cache_valid module_loaded.
Proof. intros r Hr. discriminate Hr. Qed.

(** A populated cache is returned as it is: the constructor is not called
    and the state does not change. *)
Lemma get_settings_cached (init : world → result Settings) w st r :
  _settings st = Some r →
  get_settings init w st = (Ok (Some r), st).
Proof.
  intros Hc. destruct st as [h c]. simpl in Hc. subst c.
  reflexivity.
Qed.

(** Reading the cache any number of times, in any worlds. *)
Lemma run_gets_cached (init : world → result Settings) ws : ∀ st r,
  _settings st = Some r →
  run_calls init (map (λ w, (GetSettings, w)) ws) st =
    (map (λ _, Ok (Some r)) ws, st).
Proof.
  induction ws as [|w ws IH]; intros st r Hc; simpl; [done|].
  rewrite (get_settings_cached _ _ _ _ Hc), (IH _ _ Hc). reflexivity.
Qed.

Section SingletonFacts.

Variable init : world → result Settings.

Lemma get_settings_first w st s :
  _settings st = None → init w = Ok s →
  get_settings init w st =
    (Ok (Some (length (heap st))),
     {| heap := heap st ++ [s]; _settings := Some (length (heap st)) |}).
Proof.
  intros Hc Hi. destruct st as [h c]. simpl in Hc. subst c.
  unfold get_settings, bind, read_global, Settings_call. simpl.
  rewrite Hi. reflexivity.
Qed.

Lemma get_settings_first_raises w st e :
  _settings st = None → init w = Raise e →
  get_settings init w st = (Raise e, st).
Proof.
  intros Hc Hi. destruct st as [h c]. simpl in Hc. subst c.
  unfold get_settings, bind, read_global, Settings_call. simpl.
  rewrite Hi. reflexivity.
Qed.

Lemma reload_settings_ok w st s :
  init w = Ok s →
  reload_settings init w st =
    (Ok (Some (length (heap st))),
     {| heap := heap st ++ [s]; _settings := Some (length (heap st)) |}).
Proof.
  intros Hi.
  unfold reload_settings, bind, read_global, Settings_call, new_instance,
    write_global.
  rewrite Hi. reflexivity.
Qed.

Lemma reload_settings_raises w st e :
  init w = Raise e → reload_settings init w st = (Raise e, st).
Proof.
  intros Hi. unfold reload_settings, bind, Settings_call, raise.
  rewrite Hi. reflexivity.
Qed.

(** Whatever a call does, the heap only grows at its end. *)
Lemma run_call_heap c w st :
  ∃ tl, heap (run_call init c w st).2 = heap st ++ tl.
Proof.
  destruct c; simpl.
  - destruct (_settings st) as [r|] eqn:Hc.
    + rewrite (get_settings_cached _ _ _ _ Hc). exists []. simpl.
      by rewrite app_nil_r.
    + destruct (init w) as [s|e] eqn:Hi.
      * rewrite (get_settings_first _ _ _ Hc Hi). by exists [s].
      * rewrite (get_settings_first_raises _ _ _ Hc Hi). exists []. simpl.
        by rewrite app_nil_r.
  - destruct (init w) as [s|e] eqn:Hi.
    + rewrite (reload_settings_ok _ st _ Hi). by exists [s].
    + rewrite (reload_settings_raises _ st _ Hi). exists []. simpl.
      by rewrite app_nil_r.
Qed.

Lemma run_calls_heap cs : ∀ st,
  ∃ tl, heap (run_calls init cs st).2 = heap st ++ tl.
Proof.
  induction cs as [|[c w] cs IH]; intros st; simpl.
  - exists []. by rewrite app_nil_r.
  - destruct (run_call_heap c w st) as [t1 H1].
    destruct (run_call init c w st) as [r st1]. simpl in H1.
    destruct (IH st1) as [t2 H2].
    destruct (run_calls init cs st1) as [rs st2]. simpl in *.
    exists (t1 ++ t2). by rewrite H2, H1, app_assoc.
Qed.

Lemma run_call_valid c w st :
  cache_valid st → cache_valid (run_call init c w st).2.
Proof.
  intros Hv. destruct c; simpl.
  - destruct (_settings st) as [r|] eqn:Hc.
    + by rewrite (get_settings_cached _ _ _ _ Hc).
    + destruct (init w) as [s|e] eqn:Hi.
      * rewrite (get_settings_first _ _ _ Hc Hi). intros r [= <-].
        unfold deref; simpl. rewrite lookup_app_r, Nat.sub_diag by lia.
        by eexists.
      * by rewrite (get_settings_first_raises _ _ _ Hc Hi).
  - destruct (init w) as [s|e] eqn:Hi.
    + rewrite (reload_settings_ok _ st _ Hi). intros r [= <-].
      unfold deref; simpl. rewrite lookup_app_r, Nat.sub_diag by lia.
      by eexists.
    + by rewrite (reload_settings_raises _ st _ Hi).
Qed.

Lemma run_calls_valid cs : ∀ st,
  cache_valid st → cache_valid (run_calls init cs st).2.
Proof.
  induction cs as [|[c w] cs IH]; intros st Hv; simpl; [done|].
  pose proof (run_call_valid c w st Hv) as H1.
  destruct (run_call init c w st) as [r st1]. simpl in H1.
  specialize (IH st1 H1).
  by destruct (run_calls init cs st1) as [rs st2].
Qed.

(** C3: two calls of [get_settings] with no [reload_settings] in between
    return the same cached instance, the very same reference, also when
    the world (environment, file) differs between the calls; the second
    call constructs nothing: the state is left as it was, and the
    constructor is not consulted at all. *)
Theorem get_settings_twice_same_instance
    (w1 w2 : world) (st st1 : state) (v : option ref) :
  get_settings init w1 st = (Ok v, st1) →
  (∃ r, v = Some r ∧ _settings st1 = Some r) ∧
  (∀ init' : world → result Settings,
      get_settings init' w2 st1 = (Ok v, st1)) ∧
  run_calls init [(GetSettings, w1); (GetSettings, w2)] st
    = ([Ok v; Ok v], st1).
Proof.
  intros H1.
  assert (∃ r, v = Some r ∧ _settings st1 = Some r) as (r & -> & Hc).
  { destruct (_settings st) as [r|] eqn:Hc.
    - rewrite (get_settings_cached _ _ _ _ Hc) in H1.
      injection H1 as <- <-. eauto.
    - destruct (init w1) as [s|e] eqn:Hi.
      + rewrite (get_settings_first _ _ _ Hc Hi) in H1.
        injection H1 as <- <-. eauto.
      + rewrite (get_settings_first_raises _ _ _ Hc Hi) in H1.
        discriminate. }
  split; [eauto|]. split.
  - intros init'. by apply get_settings_cached.
  - simpl. rewrite H1, (get_settings_cached _ _ _ _ Hc). reflexivity.
Qed.

(** A successful [reload_settings]: the instance is new, the old ones stay. *)
Lemma reload_settings_fresh (w : world) (st : state) (s : Settings) :
  init w = Ok s →
  ∃ r st',
    reload_settings init w st = (Ok (Some r), st') ∧
    deref st' r = Some s ∧
    deref st r = None ∧
    (∀ r0 s0, deref st r0 = Some s0 → r0 ≠ r ∧ deref st' r0 = Some s0) ∧
    (cache_valid st → _settings st ≠ Some r) ∧
    _settings st' = Some r.
Proof.
  intros Hi. eexists _, _. split; [by apply reload_settings_ok|].
  unfold deref; simpl.
  assert (heap st !! length (heap st) = None) as Hfresh
    by (apply lookup_ge_None; lia).
  repeat split.
  - by rewrite lookup_app_r, Nat.sub_diag by lia.
  - done.
  - apply lookup_lt_Some in H. unfold ref in *. lia.
  - by apply lookup_app_l_Some.
  - intros Hv Hc. destruct (Hv _ Hc) as [s0 Hs0]. unfold deref in Hs0.
    apply lookup_lt_Some in Hs0. lia.
Qed.

(** C4: [reload_settings] constructs a new instance whether or not the
    cache is populated: the instance holds what the constructor computes
    from the world of the call, its reference is none of the existing
    ones (so it differs from the cached one), the instances that existed
    are untouched, the cache now holds the new reference, and every later
    [get_settings], in any world, returns it and changes nothing. *)
Theorem reload_settings_new_instance (w : world) (st : state) (s : Settings) :
  init w = Ok s →
  ∃ r st',
    reload_settings init w st = (Ok (Some r), st') ∧
    deref st' r = Some s ∧
    deref st r = None ∧
    (∀ r0 s0, deref st r0 = Some s0 → r0 ≠ r ∧ deref st' r0 = Some s0) ∧
    (cache_valid st → _settings st ≠ Some r) ∧
    _settings st' = Some r ∧
    ∀ (init' : world → result Settings) (ws : list world),
      run_calls init' (map (λ w', (GetSettings, w')) ws) st'
        = (map (λ _, Ok (Some r)) ws, st').
Proof.
  intros Hi.
  destruct (reload_settings_fresh w st s Hi)
    as (r & st' & Hrun & Hnew & Hfresh & Hold & Hne & Hc).
  exists r, st'. repeat (split; [assumption|]).
  intros init' ws. by apply run_gets_cached.
Qed.

(** C9: an instance, once constructed, keeps its field values: no call on
    the module, in any world and in any number, changes what an existing
    reference points to.  A populated cache answers [get_settings] with
    the old instance whatever the world has become; a fresh view is a new
    instance made by [reload_settings], next to the unchanged old one. *)
Theorem instances_are_never_mutated
    (cs : list (call * world)) (st : state) (r : ref) (s : Settings) :
  deref st r = Some s →
  deref (run_calls init cs st).2 r = Some s ∧
  (_settings st = Some r →
     ∀ w, get_settings init w st = (Ok (Some r), st)) ∧
  (∀ w s', init w = Ok s' →
     ∃ r' st', reload_settings init w st = (Ok (Some r'), st') ∧
               r' ≠ r ∧ deref st' r' = Some s' ∧ deref st' r = Some s).
Proof.
  intros Hr. split; [|split].
  - destruct (run_calls_heap cs st) as [tl Htl]. unfold deref. rewrite Htl.
    by apply lookup_app_l_Some.
  - intros Hc w. by apply get_settings_cached.
  - intros w s' Hi.
    destruct (reload_settings_fresh w st s' Hi)
      as (r' & st' & Hrun & Hnew & _ & Hold & _).
    exists r', st'. destruct (Hold _ _ Hr) as [Hne Hkeep]. by eauto.
Qed.

(** C10: when construction raises, the cache is left as it was.  A failing
    [reload_settings] changes no part of the state, so [get_settings]
    goes on returning the instance cached before; a failing first
    [get_settings] leaves the cache empty, and a later call constructs
    again; along any calls the cache is empty or refers to a complete
    instance. *)
Theorem failed_construction_keeps_cache (w : world) (e : error) (st : state) :
  init w = Raise e →
  reload_settings init w st = (Raise e, st) ∧
  (∀ r w', _settings st = Some r →
     get_settings init w' (reload_settings init w st).2 = (Ok (Some r), st)) ∧
  (_settings st = None →
     get_settings init w st = (Raise e, st) ∧
     ∀ w' s, init w' = Ok s →
       ∃ r st', get_settings init w' (get_settings init w st).2
                  = (Ok (Some r), st') ∧
                deref st' r = Some s ∧ _settings st' = Some r) ∧
  (∀ cs, cache_valid st → cache_valid (run_calls init cs st).2).
Proof.
  intros Hi. rewrite (reload_settings_raises _ st _ Hi). simpl.
  split; [done|]. split; [|split].
  - intros r w' Hc. by apply get_settings_cached.
  - intros Hc. rewrite (get_settings_first_raises _ _ _ Hc Hi). simpl.
    split; [done|]. intros w' s Hi'.
    rewrite (get_settings_first _ _ _ Hc Hi').
    eexists _, _. split; [done|]. unfold deref; simpl.
    by rewrite lookup_app_r, Nat.sub_diag by lia.
  - intros cs. apply run_calls_valid.
Qed.

End SingletonFacts.

(* ===================================================================== *)
(** ** Dictionaries built from items                                      *)
(* ===================================================================== *)

Section DictFacts.

Variable norm : string → string.

Let ins (m : gmap string string) (kv : string * string) :=
  <[norm kv.1 := kv.2]> m.

Lemma foldl_ins_lookup_ext items : ∀ (m1 m2 : gmap string string) n,
  m1 !! n = m2 !! n →
  foldl ins m1 items !! n = foldl ins m2 items !! n.
Proof.
  induction items as [|[k v] items IH]; intros m1 m2 n Hm; simpl; [done|].
  apply IH. unfold ins; simpl.
  destruct (decide (norm k = n)) as [->|Hne].
  - by rewrite !lookup_insert_eq.
  - by rewrite !lookup_insert_ne.
Qed.

Lemma foldl_ins_lookup_ne items : ∀ (m : gmap string string) n,
  Forall (λ kv, norm kv.1 ≠ n) items →
  foldl ins m items !! n = m !! n.
Proof.
  induction items as [|[k v] items IH]; intros m n Hall; simpl; [done|].
  inversion Hall as [|? ? Hk Hrest]; subst. simpl in Hk.
  rewrite (IH _ _ Hrest). unfold ins; simpl. by rewrite lookup_insert_ne.
Qed.

(** A binding whose key does not normalise to [n] is invisible at [n]. *)
Lemma dict_of_skip l1 k v l2 n :
  norm k ≠ n →
  dict_of norm (l1 ++ (k, v) :: l2) !! n = dict_of norm (l1 ++ l2) !! n.
Proof.
  intros Hne. unfold dict_of. rewrite !foldl_app. simpl.
  apply foldl_ins_lookup_ext. by rewrite lookup_insert_ne.
Qed.

(** The last binding whose key normalises to [n] is the one read at [n]. *)
Lemma dict_of_last l1 k v l2 n :
  norm k = n → Forall (λ kv, norm kv.1 ≠ n) l2 →
  dict_of norm (l1 ++ (k, v) :: l2) !! n = Some v.
Proof.
  intros Hk Hl2. unfold dict_of. rewrite foldl_app. simpl.
  fold ins. rewrite (foldl_ins_lookup_ne _ _ _ Hl2).
  unfold ins; simpl. rewrite Hk. apply lookup_insert_eq.
Qed.

Lemma dict_of_none items n :
  Forall (λ kv, norm kv.1 ≠ n) items → dict_of norm items !! n = None.
Proof.
  intros Hall. unfold dict_of. fold ins.
  by rewrite (foldl_ins_lookup_ne _ _ _ Hall).
Qed.

End DictFacts.

(** [os.getenv] reads the last item of exactly that name, and gives the
    default when no item has that name. *)
Lemma getenv_last (e1 : environ) key v (e2 : environ) dflt :
  Forall (λ kv, kv.1 ≠ key) e2 →
  getenv (e1 ++ (key, v) :: e2) key dflt = v.
Proof.
  intros H. unfold getenv.
  by rewrite (dict_of_last id e1 key v e2 key eq_refl H).
Qed.

Lemma getenv_unset (env : environ) key dflt :
  Forall (λ kv, kv.1 ≠ key) env → getenv env key dflt = dflt.
Proof.
  intros H. unfold getenv. by rewrite (dict_of_none id env key H).
Qed.

(* ===================================================================== *)
(** ** The fields of the class                                            *)
(* ===================================================================== *)

Lemma lower_field_name f : lower (field_name f) = field_name f.
Proof. by destruct f. Qed.

Lemma field_name_inj f g : field_name f = field_name g → f = g.
Proof. destruct f, g; simpl; intros H; try reflexivity; discriminate H. Qed.

Lemma all_in_model_fields f : f ∈ model_fields.
Proof. unfold model_fields. destruct f; set_solver. Qed.

(* ===================================================================== *)
(** ** What a source collects                                             *)
(* ===================================================================== *)

Section ResolutionFacts.

Context {C : Coercions}.

Lemma env_name_field_name f : env_name f = field_name f.
Proof. apply lower_field_name. Qed.

(** A source depends on its variables through the field keys only. *)
Lemma collect_ext src (vars1 vars2 : gmap string string) fs :
  (∀ f, vars1 !! env_name f = vars2 !! env_name f) →
  ∀ data, collect src vars1 fs data = collect src vars2 fs data.
Proof.
  intros Hv. induction fs as [|f fs IH]; intros data; simpl; [done|].
  rewrite Hv. destruct (vars2 !! env_name f) as [v|]; [|done].
  by destruct (prepare_field_value f v).
Qed.

(** The entry of a field in what a source returns. *)
Lemma collect_lookup src (vars : gmap string string) fs :
  ∀ data0 data, collect src vars fs data0 = Ok data →
  ∀ f, data !! field_name f =
         if bool_decide (f ∈ fs) then
           match vars !! env_name f with
           | Some v => prepare_field_value f v
           | None => data0 !! field_name f
           end
         else data0 !! field_name f.
Proof.
  induction fs as [|f0 fs IH]; intros data0 data Hc f; simpl in Hc.
  - injection Hc as <-. rewrite bool_decide_eq_false_2; [done|].
    apply not_elem_of_nil.
  - destruct (vars !! env_name f0) as [v0|] eqn:Hv0.
    + destruct (prepare_field_value f0 v0) as [r0|] eqn:Hp0; [|done].
      rewrite (IH _ _ Hc f).
      destruct (decide (field_name f0 = field_name f)) as [Heq|Hne].
      * apply field_name_inj in Heq. subst f0.
        rewrite (bool_decide_eq_true_2 (f ∈ f :: fs)) by apply list_elem_of_here.
        rewrite Hv0, Hp0, lookup_insert_eq. by case_bool_decide.
      * rewrite lookup_insert_ne by done.
        assert (f ≠ f0) as Hff0 by congruence.
        rewrite (bool_decide_ext (f ∈ f0 :: fs) (f ∈ fs)); [done|].
        rewrite elem_of_cons. tauto.
    + rewrite (IH _ _ Hc f).
      destruct (decide (f = f0)) as [->|Hff0].
      * rewrite Hv0.
        rewrite (bool_decide_eq_true_2 (f0 ∈ f0 :: fs)) by apply list_elem_of_here.
        by case_bool_decide.
      * rewrite (bool_decide_ext (f ∈ f0 :: fs) (f ∈ fs)); [done|].
        rewrite elem_of_cons. tauto.
Qed.

(** Keys that name no field are left as they were. *)
Lemma collect_lookup_other src (vars : gmap string string) fs k :
  (∀ f, field_name f ≠ k) →
  ∀ data0 data, collect src vars fs data0 = Ok data →
  data !! k = data0 !! k.
Proof.
  intros Hk. induction fs as [|f0 fs IH]; intros data0 data Hc; simpl in Hc.
  - by injection Hc as <-.
  - destruct (vars !! env_name f0) as [v0|]; [|by apply IH].
    destruct (prepare_field_value f0 v0) as [r0|]; [|done].
    rewrite (IH _ _ Hc). by rewrite lookup_insert_ne.
Qed.

(** A source returns as soon as every text it finds can be prepared. *)
Lemma collect_returns src (vars : gmap string string) fs :
  (∀ f v, vars !! env_name f = Some v → is_Some (prepare_field_value f v)) →
  ∀ data0, ∃ data, collect src vars fs data0 = Ok data.
Proof.
  intros Hok. induction fs as [|f0 fs IH]; intros data0; simpl; [by eexists|].
  destruct (vars !! env_name f0) as [v0|] eqn:Hv0; [|by apply IH].
  destruct (Hok _ _ Hv0) as [r0 ->]. by apply IH.
Qed.

(** It raises when one of the fields it goes through cannot be prepared. *)
Lemma collect_raises src (vars : gmap string string) fs f v :
  f ∈ fs → vars !! env_name f = Some v → prepare_field_value f v = None →
  ∀ data0, ∃ g, collect src vars fs data0 = Raise (SettingsError src g).
Proof.
  intros Hin Hv Hp. induction fs as [|f0 fs IH]; intros data0; simpl.
  - by apply elem_of_nil in Hin.
  - destruct (decide (field_name f0 = field_name f)) as [Heq|Hne].
    + apply field_name_inj in Heq. subst f0. rewrite Hv, Hp. by eexists.
    + assert (f ∈ fs) as Hin'.
      { apply elem_of_cons in Hin as [->|?]; [done|done]. }
      destruct (vars !! env_name f0) as [v0|]; [|by apply IH].
      destruct (prepare_field_value f0 v0) as [r0|]; [|by eexists].
      by apply IH.
Qed.

Lemma collect_fields src (vars : gmap string string) data f :
  collect src vars model_fields ∅ = Ok data →
  data !! field_name f = vars !! env_name f ≫= prepare_field_value f.
Proof.
  intros Hc. rewrite (collect_lookup _ _ _ _ _ Hc f).
  rewrite bool_decide_eq_true_2 by apply all_in_model_fields.
  by destruct (vars !! env_name f).
Qed.

(* =================================================================== *)
(** ** Building and validating an instance                              *)
(* =================================================================== *)

Lemma get_field_ext s s' :
  (∀ f, get_field f s = get_field f s') → s = s'.
Proof.
  intros H. destruct s, s'.
  pose proof (H F_api_host). pose proof (H F_api_port).
  pose proof (H F_cors_origins). pose proof (H F_database_url).
  pose proof (H F_redis_url). pose proof (H F_openai_api_key).
  pose proof (H F_openai_base_url). pose proof (H F_openai_model).
  pose proof (H F_secret_key). pose proof (H F_sandbox_root).
  pose proof (H F_proactive_mode). pose proof (H F_max_frequency_per_hour).
  pose proof (H F_cooldown_minutes). pose proof (H F_dnd_hours).
  pose proof (H F_log_level). pose proof (H F_structured_logging).
  clear H. simpl in *. by simplify_eq.
Qed.

Lemma get_field_has_type f s : has_type (annotation f) (get_field f s) = true.
Proof. by destruct f. Qed.

Ltac split_field g f :=
  let E := fresh "E" in
  destruct (g f) as [[?|?|?|?|?]|] eqn:E; simpl in *; try discriminate.

Lemma build_Some g s :
  build g = Some s → ∀ f, g f = Some (get_field f s).
Proof.
  unfold build. intros H.
  split_field g F_api_host. split_field g F_api_port.
  split_field g F_cors_origins. split_field g F_database_url.
  split_field g F_redis_url. split_field g F_openai_api_key.
  split_field g F_openai_base_url. split_field g F_openai_model.
  split_field g F_secret_key. split_field g F_sandbox_root.
  split_field g F_proactive_mode. split_field g F_max_frequency_per_hour.
  split_field g F_cooldown_minutes. split_field g F_dnd_hours.
  split_field g F_log_level. split_field g F_structured_logging.
  injection H as <-. intros f. by destruct f.
Qed.

Lemma build_ext g g' : (∀ f, g f = g' f) → build g = build g'.
Proof. intros H. unfold build. by rewrite !H. Qed.

Lemma build_of_instance s : build (λ f, Some (get_field f s)) = Some s.
Proof. by destruct s. Qed.

Lemma build_iff g s :
  build g = Some s ↔ ∀ f, g f = Some (get_field f s).
Proof.
  split; [apply build_Some|].
  intros H. rewrite (build_ext g (λ f, Some (get_field f s)) H).
  apply build_of_instance.
Qed.

Ltac blame g f :=
  let E := fresh "E" in
  destruct (g f) as [[?|?|?|?|?]|] eqn:E; simpl in *;
  try (exists f; (by left) || (right; by eexists)).

Lemma build_None g :
  build g = None → ∃ f, g f = None ∨ ∃ v, g f = Some v ∧ has_type (annotation f) v = false.
Proof.
  unfold build. intros H.
  blame g F_api_host. blame g F_api_port.
  blame g F_cors_origins. blame g F_database_url.
  blame g F_redis_url. blame g F_openai_api_key.
  blame g F_openai_base_url. blame g F_openai_model.
  blame g F_secret_key. blame g F_sandbox_root.
  blame g F_proactive_mode. blame g F_max_frequency_per_hour.
  blame g F_cooldown_minutes. blame g F_dnd_hours.
  blame g F_log_level. blame g F_structured_logging.
Qed.

Lemma coerce_has_type t r v : coerce t r = Some v → has_type t v = true.
Proof.
  destruct t, r; simpl; try done; intros H;
    first [ by injection H as <-
          | by apply fmap_Some in H as (? & _ & ->) ].
Qed.

Lemma validate_field_has_type dflt data f v :
  validate_field dflt data f = Some v → has_type (annotation f) v = true.
Proof.
  unfold validate_field. destruct (data !! field_name f) as [r|].
  - apply coerce_has_type.
  - intros [= <-]. apply get_field_has_type.
Qed.

Lemma model_validate_Ok dflt data s :
  model_validate dflt data = Ok s ↔
  ∀ f, validate_field dflt data f = Some (get_field f s).
Proof.
  unfold model_validate. rewrite <- build_iff.
  destruct (build (validate_field dflt data)); split; congruence.
Qed.

Lemma model_validate_returns dflt data :
  (∀ f, is_Some (validate_field dflt data f)) →
  ∃ s, model_validate dflt data = Ok s.
Proof.
  intros Hall. unfold model_validate.
  destruct (build (validate_field dflt data)) as [s|] eqn:Hb; [by eexists|].
  apply build_None in Hb as [f [Hf|(v & Hv & Ht)]].
  - destruct (Hall f) as [v Hv]. congruence.
  - apply validate_field_has_type in Hv. congruence.
Qed.

Lemma model_validate_raises dflt data f :
  validate_field dflt data f = None →
  ∃ fs, model_validate dflt data = Raise (ValidationError fs) ∧ f ∈ fs.
Proof.
  intros Hf. unfold model_validate.
  destruct (build (validate_field dflt data)) as [s|] eqn:Hb.
  - apply build_Some with (f := f) in Hb. congruence.
  - eexists. split; [done|]. apply list_elem_of_filter.
    split; [done | apply all_in_model_fields].
Qed.

(** Validation looks at the keys that name a field and at no other. *)
Lemma model_validate_ext dflt (d1 d2 : gmap string raw) :
  (∀ f, d1 !! field_name f = d2 !! field_name f) →
  model_validate dflt d1 = model_validate dflt d2.
Proof.
  intros Hd.
  assert (∀ f, validate_field dflt d1 f = validate_field dflt d2 f) as Hv.
  { intros f. unfold validate_field. by rewrite Hd. }
  unfold model_validate. rewrite (build_ext _ _ Hv).
  destruct (build (validate_field dflt d2)); [done|].
  do 2 f_equal. apply list_filter_iff. intros f. by rewrite Hv.
Qed.

(* ===================================================================== *)
(** ** The two sources and their merge                                    *)
(* ===================================================================== *)

Lemma extras_skip_fields (vars : gmap string string) f :
  (RStr <$> filter (λ kv, kv.2 ≠ EmptyString ∧ ¬ names_a_field kv.1) vars)
    !! field_name f = None.
Proof.
  rewrite lookup_fmap, fmap_None. apply map_lookup_filter_None_2.
  right. intros v _ [_ Hn]. apply Hn. simpl. unfold names_a_field.
  apply list_elem_of_fmap. exists f.
  split; [by rewrite env_name_field_name | apply all_in_model_fields].
Qed.

Lemma env_settings_fields env e f :
  env_settings env = Ok e →
  e !! field_name f = parse_env_vars env !! env_name f ≫= prepare_field_value f.
Proof. apply (collect_fields EnvSettingsSource). Qed.

Lemma dotenv_settings_fields file d f :
  dotenv_settings file = Ok d →
  d !! field_name f =
    from_option parse_env_vars ∅ file !! env_name f ≫= prepare_field_value f.
Proof.
  unfold dotenv_settings.
  destruct (collect _ _ _ _) as [data|e] eqn:Hc; [|done].
  intros [= <-]. rewrite lookup_union_l by apply extras_skip_fields.
  exact (collect_fields _ _ _ _ Hc).
Qed.

Lemma merged_lookup w e d f :
  env_settings (os_environ w) = Ok e → dotenv_settings (dotenv w) = Ok d →
  (e ∪ d) !! field_name f = raw_input w f.
Proof.
  intros He Hd. rewrite lookup_union.
  by rewrite (env_settings_fields _ _ _ He), (dotenv_settings_fields _ _ _ Hd).
Qed.

(** What a successful construction stores in each field. *)
Lemma Settings_init_Ok env0 w s :
  Settings_init env0 w = Ok s →
  ∀ f, match raw_input w f with
       | Some r => coerce (annotation f) r
       | None => Some (get_field f (class_defaults env0))
       end = Some (get_field f s).
Proof.
  unfold Settings_init.
  destruct (env_settings _) as [e|] eqn:He; [|done].
  destruct (dotenv_settings _) as [d|] eqn:Hd; [|done].
  intros Hs f. apply model_validate_Ok with (f := f) in Hs.
  unfold validate_field in Hs. by rewrite (merged_lookup _ _ _ _ He Hd) in Hs.
Qed.

Lemma accepts_true f o v :
  accepts f o = true → o = Some v → is_Some (coerce_text f v).
Proof. intros Ha ->. simpl in Ha. by apply bool_decide_eq_true in Ha. Qed.

Lemma acceptable_field w f :
  acceptable w = true →
  accepts f (env_lookup w f) = true ∧ accepts f (file_lookup w f) = true.
Proof.
  unfold acceptable. rewrite forallb_forall. intros H.
  apply andb_true_iff, H, list_elem_of_In, all_in_model_fields.
Qed.

Lemma coerce_text_prepared f v :
  is_Some (coerce_text f v) → is_Some (prepare_field_value f v).
Proof.
  unfold coerce_text. intros [x Hx].
  destruct (prepare_field_value f v); [by eexists | done].
Qed.

Lemma env_settings_returns env :
  (∀ f v, parse_env_vars env !! env_name f = Some v →
          is_Some (prepare_field_value f v)) →
  ∃ e, env_settings env = Ok e.
Proof. intros H. by apply collect_returns. Qed.

Lemma dotenv_settings_returns file :
  (∀ f v, from_option parse_env_vars ∅ file !! env_name f = Some v →
          is_Some (prepare_field_value f v)) →
  ∃ d, dotenv_settings file = Ok d.
Proof.
  intros H. unfold dotenv_settings.
  destruct (collect_returns DotEnvSettingsSource _ model_fields H ∅) as [d ->].
  by eexists.
Qed.

(** Under [acceptable], whatever reaches validation passes it. *)
Lemma raw_input_accepted w f :
  acceptable w = true →
  ∀ r, raw_input w f = Some r → is_Some (coerce (annotation f) r).
Proof.
  intros Hacc r. destruct (acceptable_field w f Hacc) as [Ha1 Ha2].
  clear Hacc. unfold raw_input.
  destruct (env_lookup w f) as [v|].
  - destruct (accepts_true f _ v Ha1 eq_refl) as [x Hx].
    unfold coerce_text in Hx. cbn.
    destruct (prepare_field_value f v) as [r1|]; [|done]. cbn in Hx.
    destruct (file_lookup w f ≫= prepare_field_value f);
      cbn; intros [= <-]; by eexists.
  - cbn. destruct (file_lookup w f) as [v|]; [|done].
    destruct (accepts_true f _ v Ha2 eq_refl) as [x Hx].
    unfold coerce_text in Hx. cbn.
    destruct (prepare_field_value f v) as [r1|]; [|done]. cbn in Hx.
    cbn. intros [= <-]. by eexists.
Qed.

(** Construction returns when every supplied text is acceptable. *)
Lemma Settings_init_returns env0 w :
  acceptable w = true → ∃ s, Settings_init env0 w = Ok s.
Proof.
  intros Hacc. unfold Settings_init.
  destruct (env_settings_returns (os_environ w)) as [e He].
  { intros f v Hv. apply coerce_text_prepared.
    by apply (accepts_true f _ v (proj1 (acceptable_field w f Hacc))). }
  destruct (dotenv_settings_returns (dotenv w)) as [d Hd].
  { intros f v Hv. apply coerce_text_prepared.
    by apply (accepts_true f _ v (proj2 (acceptable_field w f Hacc))). }
  rewrite He, Hd. apply model_validate_returns. intros f.
  unfold validate_field. rewrite (merged_lookup _ _ _ _ He Hd).
  destruct (raw_input w f) as [r|] eqn:Hr; [|by eexists].
  by apply (raw_input_accepted w f Hacc).
Qed.

(** Construction raises when the text that wins for a field is rejected. *)
Lemma Settings_init_raises env0 w f v :
  env_lookup w f = Some v ∨ (env_lookup w f = None ∧ file_lookup w f = Some v) →
  coerce_text f v = None →
  ∃ e, Settings_init env0 w = Raise e ∧
       ((∃ src g, e = SettingsError src g) ∨
        (∃ fs, e = ValidationError fs ∧ f ∈ fs)).
Proof.
  intros Hsel Hbad. unfold Settings_init.
  destruct (env_settings _) as [e|err] eqn:He.
  2:{ exists err. split; [done|]. left.
      unfold env_settings in He.
      destruct err as [src g|fs]; [by eauto|].
      exfalso. clear -He. revert He. generalize (∅ : gmap string raw).
      induction model_fields as [|f0 fs0 IH]; intros d; simpl; [done|].
      destruct (_ !! env_name f0); [|by apply IH].
      destruct (prepare_field_value f0 _); [by apply IH | done]. }
  destruct (dotenv_settings _) as [d|err] eqn:Hd.
  2:{ exists err. split; [done|]. left.
      unfold dotenv_settings in Hd.
      destruct (collect _ _ _ _) as [?|err'] eqn:Hc; [done|].
      injection Hd as <-.
      destruct err' as [src g|fs]; [by eauto|].
      exfalso. clear -Hc. revert Hc. generalize (∅ : gmap string raw).
      induction model_fields as [|f0 fs0 IH]; intros d; simpl; [done|].
      destruct (_ !! env_name f0); [|by apply IH].
      destruct (prepare_field_value f0 _); [by apply IH | done]. }
  destruct (model_validate_raises (class_defaults env0) (e ∪ d) f) as (fs & -> & Hin).
  { unfold validate_field. rewrite (merged_lookup _ _ _ _ He Hd).
    pose proof (env_settings_fields _ _ f He) as He'.
    pose proof (dotenv_settings_fields _ _ f Hd) as Hd'.
    unfold raw_input. fold (env_lookup w f) in He'. fold (file_lookup w f) in Hd'.
    unfold coerce_text in Hbad.
    destruct Hsel as [Hv|[Hn Hv]].
    - rewrite Hv in *. simpl in *.
      destruct (prepare_field_value f v) as [r|] eqn:Hp; simpl in *.
      + by destruct (file_lookup w f ≫= prepare_field_value f).
      + (* the environment source would have raised *)
        exfalso. unfold env_settings in He.
        destruct (collect_raises EnvSettingsSource _ model_fields f v
                    (all_in_model_fields f) Hv Hp ∅) as [g Hg].
        unfold env_lookup in Hv. congruence.
    - rewrite Hn, Hv in *. simpl in *.
      destruct (prepare_field_value f v) as [r|] eqn:Hp; simpl in *; [done|].
      exfalso. unfold dotenv_settings in Hd.
      destruct (collect_raises DotEnvSettingsSource _ model_fields f v
                  (all_in_model_fields f) Hv Hp ∅) as [g Hg].
      unfold file_lookup in Hv. rewrite Hg in Hd. discriminate. }
  eexists. split; [done|]. right. by eauto.
Qed.

(* ===================================================================== *)
(** ** Where each field of a constructed instance comes from              *)
(* ===================================================================== *)

Lemma Settings_init_prepared env0 w s f v :
  Settings_init env0 w = Ok s →
  env_lookup w f = Some v ∨ (env_lookup w f = None ∧ file_lookup w f = Some v) →
  ∃ r, prepare_field_value f v = Some r ∧ raw_input w f = Some r.
Proof.
  intros Hs Hsel.
  destruct (coerce_text f v) as [x|] eqn:Hx.
  - unfold coerce_text in Hx.
    destruct (prepare_field_value f v) as [r|] eqn:Hp; [|done].
    exists r. split; [done|]. unfold raw_input.
    destruct Hsel as [Hv|[Hn Hv]].
    + rewrite Hv. cbn. rewrite Hp.
      by destruct (file_lookup w f ≫= prepare_field_value f).
    + rewrite Hn, Hv. cbn. by rewrite Hp.
  - destruct (Settings_init_raises env0 w f v Hsel Hx) as (e & He & _).
    congruence.
Qed.

(** A field bound in the live environment holds the value of that text. *)
Lemma resolved_from_env env0 w s f v :
  Settings_init env0 w = Ok s → env_lookup w f = Some v →
  coerce_text f v = Some (get_field f s).
Proof.
  intros Hs Hv.
  destruct (Settings_init_prepared env0 w s f v Hs (or_introl Hv))
    as (r & Hp & Hr).
  pose proof (Settings_init_Ok env0 w s Hs f) as Hf. rewrite Hr in Hf.
  unfold coerce_text. by rewrite Hp.
Qed.

(** A field bound in the file only holds the value of the file's text. *)
Lemma resolved_from_file env0 w s f v :
  Settings_init env0 w = Ok s →
  env_lookup w f = None → file_lookup w f = Some v →
  coerce_text f v = Some (get_field f s).
Proof.
  intros Hs Hn Hv.
  destruct (Settings_init_prepared env0 w s f v Hs (or_intror (conj Hn Hv)))
    as (r & Hp & Hr).
  pose proof (Settings_init_Ok env0 w s Hs f) as Hf. rewrite Hr in Hf.
  unfold coerce_text. by rewrite Hp.
Qed.

(** A field bound nowhere holds the class default. *)
Lemma resolved_default env0 w s f :
  Settings_init env0 w = Ok s →
  env_lookup w f = None → file_lookup w f = None →
  get_field f s = get_field f (class_defaults env0).
Proof.
  intros Hs Hn Hn'.
  pose proof (Settings_init_Ok env0 w s Hs f) as Hf.
  unfold raw_input in Hf. rewrite Hn, Hn' in Hf. cbn in Hf. congruence.
Qed.

Lemma acceptable_intro w :
  (∀ f, accepts f (env_lookup w f) = true ∧ accepts f (file_lookup w f) = true) →
  acceptable w = true.
Proof.
  intros H. unfold acceptable. apply forallb_forall. intros f _.
  apply andb_true_iff, H.
Qed.

Lemma Settings_init_defaults env0 w :
  (∀ f, env_lookup w f = None) → (∀ f, file_lookup w f = None) →
  Settings_init env0 w = Ok (class_defaults env0).
Proof.
  intros He Hf.
  destruct (Settings_init_returns env0 w) as [s Hs].
  { apply acceptable_intro. intros f. by rewrite He, Hf. }
  rewrite Hs. f_equal. apply get_field_ext. intros f.
  by apply (resolved_default env0 w).
Qed.

Lemma file_lookup_no_file w f : dotenv w = None → file_lookup w f = None.
Proof. intros H. unfold file_lookup. by rewrite H. Qed.

(** What the first [get_settings] and any [reload_settings] hand back when
    construction succeeds. *)
Lemma first_get_returns init w st s :
  _settings st = None → init w = Ok s →
  returned_instance (get_settings init w st) = Some s.
Proof.
  intros Hc Hi. rewrite (get_settings_first _ _ _ _ Hc Hi).
  unfold returned_instance, deref. simpl.
  by rewrite lookup_app_r, Nat.sub_diag by lia.
Qed.

Lemma reload_returns init w st s :
  init w = Ok s →
  returned_instance (reload_settings init w st) = Some s.
Proof.
  intros Hi. rewrite (reload_settings_ok _ _ _ _ Hi).
  unfold returned_instance, deref. simpl.
  by rewrite lookup_app_r, Nat.sub_diag by lia.
Qed.

(* ===================================================================== *)
(** ** Keys that name no field                                            *)
(* ===================================================================== *)

Lemma not_a_field_key k f : ¬ names_a_field (lower k) → lower k ≠ env_name f.
Proof.
  intros Hn Heq. apply Hn. unfold names_a_field. rewrite Heq.
  apply list_elem_of_fmap. exists f. split; [done | apply all_in_model_fields].
Qed.

Lemma env_settings_skip k v e1 e2 :
  ¬ names_a_field (lower k) →
  env_settings (e1 ++ (k, v) :: e2) = env_settings (e1 ++ e2).
Proof.
  intros Hk. unfold env_settings. apply collect_ext. intros f.
  apply dict_of_skip. by apply not_a_field_key.
Qed.

Lemma Settings_init_skip_env env0 k v e1 e2 file :
  ¬ names_a_field (lower k) →
  Settings_init env0 {| os_environ := e1 ++ (k, v) :: e2; dotenv := file |}
  = Settings_init env0 {| os_environ := e1 ++ e2; dotenv := file |}.
Proof.
  intros Hk. unfold Settings_init. cbn [os_environ dotenv].
  by rewrite (env_settings_skip k v e1 e2 Hk).
Qed.

Lemma Settings_init_skip_file env0 k v env l1 l2 :
  ¬ names_a_field (lower k) →
  Settings_init env0 {| os_environ := env; dotenv := Some (l1 ++ (k, v) :: l2) |}
  = Settings_init env0 {| os_environ := env; dotenv := Some (l1 ++ l2) |}.
Proof.
  intros Hk. unfold Settings_init. cbn [os_environ dotenv].
  destruct (env_settings env) as [e|err]; [|done].
  unfold dotenv_settings. cbn [from_option].
  rewrite (collect_ext DotEnvSettingsSource
             (parse_env_vars (l1 ++ (k, v) :: l2)) (parse_env_vars (l1 ++ l2))).
  2:{ intros f. apply dict_of_skip. by apply not_a_field_key. }
  destruct (collect _ _ _ _) as [data|err]; [|done].
  apply model_validate_ext. intros f.
  rewrite !lookup_union. by rewrite !extras_skip_fields.
Qed.

Lemma prepare_simple f v :
  field_is_complex f = false → prepare_field_value f v = Some (RStr v).
Proof. intros H. unfold prepare_field_value. by rewrite H. Qed.

(** A source raises on list-typed fields only. *)
Lemma collect_raise_complex src (vars : gmap string string) fs :
  ∀ data0 e, collect src vars fs data0 = Raise e →
  ∃ g, e = SettingsError src g ∧ field_is_complex g = true.
Proof.
  induction fs as [|f0 fs IH]; intros data0 e; simpl; [done|].
  destruct (vars !! env_name f0) as [v0|]; [|by apply IH].
  destruct (prepare_field_value f0 v0) as [r0|] eqn:Hp; [by apply IH|].
  intros [= <-]. exists f0. split; [done|].
  destruct (field_is_complex f0) eqn:Hc; [done|].
  by rewrite (prepare_simple f0 v0 Hc) in Hp.
Qed.

(** A source error of the constructor names a list-typed field. *)
Lemma Settings_init_source_error env0 w src g :
  Settings_init env0 w = Raise (SettingsError src g) →
  field_is_complex g = true.
Proof.
  unfold Settings_init.
  destruct (env_settings _) as [es|err] eqn:He.
  2:{ intros [= ->]. unfold env_settings in He.
      destruct (collect_raise_complex _ _ _ _ _ He) as (g' & Hg & Hc).
      by injection Hg as _ ->. }
  destruct (dotenv_settings _) as [ds|err] eqn:Hd.
  2:{ intros [= ->]. unfold dotenv_settings in Hd.
      destruct (collect _ _ _ _) as [?|err'] eqn:Hc; [done|].
      injection Hd as ->.
      destruct (collect_raise_complex _ _ _ _ _ Hc) as (g' & Hg & Hc').
      by injection Hg as _ ->. }
  unfold model_validate. by destruct (build _).
Qed.

(* ===================================================================== *)
(** ** The resolution claims                                              *)
(* ===================================================================== *)

(** C1: a field bound both in the environment file and in the live
    environment holds, in the instance that [get_settings] or
    [reload_settings] constructs, the value of the live-environment text
    (precedence: defaults, then file, then environment); construction
    returns whenever every supplied text is acceptable.  With [API_PORT=9001]
    in the environment before the first call, [get_settings().api_port] is
    9001, whatever an acceptable file says. *)
Theorem environment_wins_over_file :
  (∀ env0 w f v_env v_file,
      env_lookup w f = Some v_env →
      file_lookup w f = Some v_file →
      (∀ s, Settings_init env0 w = Ok s →
            coerce_text f v_env = Some (get_field f s)) ∧
      (acceptable w = true →
       ∃ s, Settings_init env0 w = Ok s ∧
            (∀ st, _settings st = None →
               returned_instance (get_settings (Settings_init env0) w st)
                 = Some s) ∧
            (∀ st,
               returned_instance (reload_settings (Settings_init env0) w st)
                 = Some s))) ∧
  (∀ env0 file,
      validate_int "9001" = Some 9001 →
      acceptable {| os_environ := [("API_PORT", "9001")]%string; dotenv := file |} = true →
      ∃ s, returned_instance
             (get_settings (Settings_init env0)
                {| os_environ := [("API_PORT", "9001")]%string; dotenv := file |}
                module_loaded) = Some s ∧
           api_port s = 9001).
Proof.
  split.
  - intros env0 w f v_env v_file Hv _. split.
    + intros s Hs. by apply (resolved_from_env env0 w).
    + intros Hacc.
      destruct (Settings_init_returns env0 w Hacc) as [s Hs].
      exists s. split; [done|]. split.
      * intros st Hc. by apply first_get_returns.
      * intros st. by apply reload_returns.
  - intros env0 file H9001 Hacc.
    destruct (Settings_init_returns env0 _ Hacc) as [s Hs].
    exists s. split; [by apply first_get_returns|].
    assert (coerce_text F_api_port "9001" = Some (get_field F_api_port s)) as Hf.
    { by apply (resolved_from_env env0 _ s F_api_port "9001" Hs). }
    unfold coerce_text in Hf. cbn in Hf. rewrite H9001 in Hf. cbn in Hf.
    congruence.
Qed.

(** C2: with no environment variable naming a field and no environment
    file, construction returns, and so does the first [get_settings], an
    instance in which every field is its default: the fourteen literals of
    the class body, among them [api_port] 8000 and the two localhost
    origins of [cors_origins], and, for [openai_api_key] and
    [openai_base_url], what the variable of that name held when the class
    was defined, the empty string when there was none. *)
Theorem defaults_when_nothing_is_set env0 w :
  (∀ f, env_lookup w f = None) →
  dotenv w = None →
  ∃ s,
    Settings_init env0 w = Ok s ∧
    returned_instance (get_settings (Settings_init env0) w module_loaded)
      = Some s ∧
    api_host s = "0.0.0.0"%string ∧
    api_port s = 8000 ∧
    cors_origins s = ["http://localhost:3000"; "http://127.0.0.1:3000"]%string ∧
    database_url s = "sqlite:///./shinwa_agent.db"%string ∧
    redis_url s = "redis://localhost:6379/0"%string ∧
    openai_model s = "gpt-4.1-mini"%string ∧
    secret_key s = "dev-secret-key-change-in-production"%string ∧
    sandbox_root s = "/workspace"%string ∧
    proactive_mode s = "reactive"%string ∧
    max_frequency_per_hour s = 3 ∧
    cooldown_minutes s = 15 ∧
    dnd_hours s = [22; 23; 0; 1; 2; 3; 4; 5; 6] ∧
    log_level s = "INFO"%string ∧
    structured_logging s = true ∧
    (Forall (λ kv, kv.1 ≠ "OPENAI_API_KEY"%string) env0 →
       openai_api_key s = EmptyString) ∧
    (Forall (λ kv, kv.1 ≠ "OPENAI_BASE_URL"%string) env0 →
       openai_base_url s = EmptyString) ∧
    (∀ e1 v e2, env0 = e1 ++ ("OPENAI_API_KEY"%string, v) :: e2 →
       Forall (λ kv, kv.1 ≠ "OPENAI_API_KEY"%string) e2 →
       openai_api_key s = v) ∧
    (∀ e1 v e2, env0 = e1 ++ ("OPENAI_BASE_URL"%string, v) :: e2 →
       Forall (λ kv, kv.1 ≠ "OPENAI_BASE_URL"%string) e2 →
       openai_base_url s = v).
Proof.
  intros He Hf.
  assert (Settings_init env0 w = Ok (class_defaults env0)) as Hs.
  { apply Settings_init_defaults; [done|].
    intros f. by apply file_lookup_no_file. }
  exists (class_defaults env0).
  split; [done|]. split; [by apply first_get_returns|].
  repeat (split; [reflexivity|]).
  cbn [class_defaults openai_api_key openai_base_url].
  split; [by apply getenv_unset|]. split; [by apply getenv_unset|].
  split; intros e1 v e2 -> H; by apply getenv_last.
Qed.

(** C5, as amended: when the text that the resolution selects for a field
    (the live environment's, else the file's) cannot be coerced to the
    annotation of the field, construction raises: a validation error that
    lists the field, unless a source has already failed on a list-typed
    field; no instance is produced, so the field does not fall back to its
    default, and the exception reaches the caller of [get_settings] and of
    [reload_settings] with the state untouched.  With
    [API_PORT=not_an_integer], validation rejects [api_port]. *)
Theorem rejected_value_fails_construction :
  (∀ env0 w f v,
      env_lookup w f = Some v ∨
        (env_lookup w f = None ∧ file_lookup w f = Some v) →
      coerce_text f v = None →
      ∃ e, Settings_init env0 w = Raise e ∧
           ((∃ src g, e = SettingsError src g ∧ field_is_complex g = true) ∨
            (∃ fs, e = ValidationError fs ∧ f ∈ fs)) ∧
           (∀ s, Settings_init env0 w ≠ Ok s) ∧
           (∀ st, _settings st = None →
              get_settings (Settings_init env0) w st = (Raise e, st)) ∧
           (∀ st, reload_settings (Settings_init env0) w st = (Raise e, st))) ∧
  (∀ env0,
      validate_int "not_an_integer" = None →
      ∃ fs, Settings_init env0
              {| os_environ := [("API_PORT", "not_an_integer")]%string;
                 dotenv := None |} = Raise (ValidationError fs) ∧
            F_api_port ∈ fs).
Proof.
  split.
  - intros env0 w f v Hsel Hbad.
    destruct (Settings_init_raises env0 w f v Hsel Hbad) as (e & He & Hshape).
    exists e. split; [done|]. split; [|split; [|split]].
    + destruct Hshape as [(src & g & ->)|Hval]; [|by right].
      left. exists src, g. split; [done|].
      by apply (Settings_init_source_error env0 w src g).
    + intros s Hs. congruence.
    + intros st Hc. by apply get_settings_first_raises.
    + intros st. by apply reload_settings_raises.
  - intros env0 Hbad. unfold Settings_init. cbn [os_environ dotenv].
    destruct (env_settings_returns [("API_PORT", "not_an_integer")]%string)
      as [e He].
    { intros f v Hv. destruct f; vm_compute in Hv; try discriminate Hv.
      by eexists. }
    destruct (dotenv_settings_returns None) as [d Hd].
    { intros f v Hv. cbn in Hv. by rewrite lookup_empty in Hv. }
    rewrite He, Hd. apply model_validate_raises. unfold validate_field.
    rewrite (merged_lookup
               {| os_environ := [("API_PORT", "not_an_integer")]%string;
                  dotenv := None |} e d F_api_port He Hd).
    replace (raw_input _ F_api_port) with (Some (RStr "not_an_integer"))
      by (vm_compute; reflexivity).
    cbn. by rewrite Hbad.
Qed.

(** C6: an input key that names no field, in the environment or in the
    file, changes nothing: construction gives what it gives without the
    binding, so it succeeds when it would succeed without it and the fields
    are the same.  [UNKNOWN_FIELD=foo] alone, in either place, constructs
    the defaults and raises nothing. *)
Theorem unknown_keys_are_ignored :
  (∀ env0 k v e1 e2 l1 l2 env file,
      ¬ names_a_field (lower k) →
      Settings_init env0 {| os_environ := e1 ++ (k, v) :: e2; dotenv := file |}
        = Settings_init env0 {| os_environ := e1 ++ e2; dotenv := file |} ∧
      Settings_init env0 {| os_environ := env; dotenv := Some (l1 ++ (k, v) :: l2) |}
        = Settings_init env0 {| os_environ := env; dotenv := Some (l1 ++ l2) |}) ∧
  (∀ env0,
      Settings_init env0
        {| os_environ := [("UNKNOWN_FIELD", "foo")]%string; dotenv := None |}
        = Ok (class_defaults env0) ∧
      Settings_init env0
        {| os_environ := []; dotenv := Some [("UNKNOWN_FIELD", "foo")]%string |}
        = Ok (class_defaults env0)).
Proof.
  split.
  - intros env0 k v e1 e2 l1 l2 env file Hk. split.
    + by apply Settings_init_skip_env.
    + by apply Settings_init_skip_file.
  - intros env0. split; apply Settings_init_defaults;
      intros f; by destruct f.
Qed.

(** C7: a field bound in the environment file and not in the live
    environment holds the value of the file's text; the key is matched
    whatever its case, the last matching binding of the file being the one
    that counts; construction returns whenever every supplied text is
    acceptable. *)
Theorem file_value_when_only_in_file env0 w l1 k v l2 f :
  dotenv w = Some (l1 ++ (k, v) :: l2) →
  lower k = lower (field_name f) →
  Forall (λ kv, lower kv.1 ≠ lower (field_name f)) l2 →
  Forall (λ kv, lower kv.1 ≠ lower (field_name f)) (os_environ w) →
  (∀ s, Settings_init env0 w = Ok s →
        coerce_text f v = Some (get_field f s)) ∧
  (acceptable w = true →
   ∃ s, Settings_init env0 w = Ok s ∧
        (∀ st, _settings st = None →
           returned_instance (get_settings (Settings_init env0) w st) = Some s) ∧
        (∀ st,
           returned_instance (reload_settings (Settings_init env0) w st)
             = Some s)).
Proof.
  intros Hfile Hk Hl2 Henv. split.
  - intros s Hs. apply (resolved_from_file env0 w s f v Hs).
    + unfold env_lookup, parse_env_vars. by apply dict_of_none.
    + unfold file_lookup. rewrite Hfile. cbn [from_option].
      unfold parse_env_vars. by apply dict_of_last.
  - intros Hacc. destruct (Settings_init_returns env0 w Hacc) as [s Hs].
    exists s. split; [done|]. split.
    + intros st Hc. by apply first_get_returns.
    + intros st. by apply reload_returns.
Qed.

(** C8: the defaults of [openai_api_key] and [openai_base_url] are read
    from the process environment when the class statement runs: the value
    of the last variable named exactly [OPENAI_API_KEY], respectively
    [OPENAI_BASE_URL], and the empty string when no variable has that name.
    No file is involved, and no other default depends on the environment.
    An instance constructed later, in a world that binds the field nowhere,
    with or without a file, carries the value read at class definition. *)
Theorem openai_fields_read_at_class_definition :
  (∀ e1 v e2,
     Forall (λ kv, kv.1 ≠ "OPENAI_API_KEY"%string) e2 →
     openai_api_key (class_defaults (e1 ++ ("OPENAI_API_KEY"%string, v) :: e2))
       = v) ∧
  (∀ e1 v e2,
     Forall (λ kv, kv.1 ≠ "OPENAI_BASE_URL"%string) e2 →
     openai_base_url (class_defaults (e1 ++ ("OPENAI_BASE_URL"%string, v) :: e2))
       = v) ∧
  (∀ env0,
     Forall (λ kv, kv.1 ≠ "OPENAI_API_KEY"%string) env0 →
     openai_api_key (class_defaults env0) = EmptyString) ∧
  (∀ env0,
     Forall (λ kv, kv.1 ≠ "OPENAI_BASE_URL"%string) env0 →
     openai_base_url (class_defaults env0) = EmptyString) ∧
  (∀ env0 f, f ≠ F_openai_api_key → f ≠ F_openai_base_url →
     get_field f (class_defaults env0) = get_field f (class_defaults [])) ∧
  (∀ e1 v e2 w s,
     Forall (λ kv, kv.1 ≠ "OPENAI_API_KEY"%string) e2 →
     Settings_init (e1 ++ ("OPENAI_API_KEY"%string, v) :: e2) w = Ok s →
     env_lookup w F_openai_api_key = None →
     file_lookup w F_openai_api_key = None →
     openai_api_key s = v) ∧
  (∀ e1 v e2 w s,
     Forall (λ kv, kv.1 ≠ "OPENAI_BASE_URL"%string) e2 →
     Settings_init (e1 ++ ("OPENAI_BASE_URL"%string, v) :: e2) w = Ok s →
     env_lookup w F_openai_base_url = None →
     file_lookup w F_openai_base_url = None →
     openai_base_url s = v).
Proof.
  split; [|split; [|split; [|split; [|split; [|split]]]]].
  - intros e1 v e2 H. cbn [class_defaults openai_api_key].
    by apply getenv_last.
  - intros e1 v e2 H. cbn [class_defaults openai_base_url].
    by apply getenv_last.
  - intros env0 H. cbn [class_defaults openai_api_key].
    by apply getenv_unset.
  - intros env0 H. cbn [class_defaults openai_base_url].
    by apply getenv_unset.
  - intros env0 f H1 H2. by destruct f.
  - intros e1 v e2 w s H Hs Hn Hn'.
    pose proof (resolved_default _ w s F_openai_api_key Hs Hn Hn') as Hd.
    cbn [get_field class_defaults openai_api_key] in Hd.
    rewrite (getenv_last e1 _ v e2 _ H) in Hd. congruence.
  - intros e1 v e2 w s H Hs Hn Hn'.
    pose proof (resolved_default _ w s F_openai_base_url Hs Hn Hn') as Hd.
    cbn [get_field class_defaults openai_base_url] in Hd.
    rewrite (getenv_last e1 _ v e2 _ H) in Hd. congruence.
Qed.

End ResolutionFacts.

(* ===================================================================== *)
(** ** The claims on concrete inputs                                      *)
(* ===================================================================== *)

Lemma get_settings_twice_same_instance_witness :
  get_settings Sample.init Sample.w_plain module_loaded
    = (Ok (Some 0%nat), (get_settings Sample.init Sample.w_plain module_loaded).2) ∧
  run_calls Sample.init
    [(GetSettings, Sample.w_plain); (GetSettings, Sample.w_env_and_file)]
    module_loaded
    = ([Ok (Some 0%nat); Ok (Some 0%nat)],
       (get_settings Sample.init Sample.w_plain module_loaded).2).
Proof.
  split; [vm_compute; reflexivity|].
  apply (get_settings_twice_same_instance Sample.init
           Sample.w_plain Sample.w_env_and_file module_loaded).
  vm_compute; reflexivity.
Defined.

Lemma reload_settings_new_instance_witness :
  Sample.init Sample.w_env_and_file
    = Ok (mkSettings "0.0.0.0" 9001
            ["http://localhost:3000"; "http://127.0.0.1:3000"]%string
            "sqlite:///./shinwa_agent.db" "redis://localhost:6379/0"
            "sk-test" EmptyString "gpt-4.1-mini" "dev-secret-key-change-in-production"
            "/workspace" "reactive" 3 15 [1; 2] "debug" true) ∧
  ∃ r st',
    reload_settings Sample.init Sample.w_env_and_file
      (get_settings Sample.init Sample.w_plain module_loaded).2
      = (Ok (Some r), st') ∧
    (api_port <$> deref st' r) = Some 9001 ∧
    _settings st' = Some r.
Proof.
  split; [vm_compute; reflexivity|].
  destruct (reload_settings_new_instance Sample.init Sample.w_env_and_file
              (get_settings Sample.init Sample.w_plain module_loaded).2
              _ ltac:(vm_compute; reflexivity))
    as (r & st' & Hrun & Hnew & _ & _ & _ & Hc & _).
  exists r, st'. split; [exact Hrun|]. split; [|exact Hc].
  rewrite Hnew. reflexivity.
Defined.

Lemma instances_are_never_mutated_witness :
  deref (get_settings Sample.init Sample.w_plain module_loaded).2 0%nat
    = Some (class_defaults Sample.env0) ∧
  deref (run_calls Sample.init
           [(ReloadSettings, Sample.w_env_and_file); (GetSettings, Sample.w_plain);
            (ReloadSettings, Sample.w_bad)]
           (get_settings Sample.init Sample.w_plain module_loaded).2).2 0%nat
    = Some (class_defaults Sample.env0).
Proof.
  split; [vm_compute; reflexivity|].
  apply (instances_are_never_mutated Sample.init).
  vm_compute; reflexivity.
Defined.

Lemma failed_construction_keeps_cache_witness :
  Sample.init Sample.w_bad = Raise (ValidationError [F_api_port]) ∧
  reload_settings Sample.init Sample.w_bad
    (get_settings Sample.init Sample.w_plain module_loaded).2
    = (Raise (ValidationError [F_api_port]),
       (get_settings Sample.init Sample.w_plain module_loaded).2).
Proof.
  split; [vm_compute; reflexivity|].
  apply (failed_construction_keeps_cache Sample.init Sample.w_bad).
  vm_compute; reflexivity.
Defined.

Lemma environment_wins_over_file_witness :
  (env_lookup Sample.w_env_and_file F_api_port = Some "9001"%string ∧
   file_lookup Sample.w_env_and_file F_api_port = Some "8080"%string ∧
   acceptable (C := Sample.coercions) Sample.w_env_and_file = true) ∧
  ∃ s, Sample.init Sample.w_env_and_file = Ok s ∧ api_port s = 9001.
Proof.
  split; [repeat split; vm_compute; reflexivity|].
  destruct (proj1 (@environment_wins_over_file Sample.coercions)
              Sample.env0 Sample.w_env_and_file F_api_port "9001"%string
              "8080"%string
              ltac:(vm_compute; reflexivity) ltac:(vm_compute; reflexivity))
    as [Hval Hret].
  destruct (Hret ltac:(vm_compute; reflexivity)) as (s & Hs & _).
  exists s. split; [exact Hs|].
  pose proof (Hval s Hs) as Hf. vm_compute in Hf.
  injection Hf as Hf. symmetry. exact Hf.
Defined.

Lemma defaults_when_nothing_is_set_witness :
  ((∀ f, env_lookup Sample.w_plain f = None) ∧ dotenv Sample.w_plain = None) ∧
  Settings_init (C := Sample.coercions) [("HOME", "/root")]%string Sample.w_plain
  = Ok (mkSettings "0.0.0.0" 8000
          ["http://localhost:3000"; "http://127.0.0.1:3000"]%string
          "sqlite:///./shinwa_agent.db" "redis://localhost:6379/0"
          EmptyString EmptyString "gpt-4.1-mini"
          "dev-secret-key-change-in-production" "/workspace" "reactive"
          3 15 [22; 23; 0; 1; 2; 3; 4; 5; 6] "INFO" true).
Proof.
  assert (∀ f, env_lookup Sample.w_plain f = None) as He
    by (intros f; destruct f; vm_compute; reflexivity).
  split; [split; [exact He | reflexivity]|].
  destruct (@defaults_when_nothing_is_set Sample.coercions
              [("HOME", "/root")]%string Sample.w_plain He eq_refl)
    as (s & Hs & _ & H1 & H2 & H3 & H4 & H5 & H6 & H7 & H8 & H9 & H10 & H11
          & H12 & H13 & H14 & Hk & Hb & _).
  rewrite Hs. f_equal. destruct s. cbn in *.
  rewrite (Hk ltac:(repeat constructor; discriminate)).
  rewrite (Hb ltac:(repeat constructor; discriminate)).
  subst. reflexivity.
Defined.

Lemma rejected_value_fails_construction_witness :
  (env_lookup Sample.w_bad F_api_port = Some "not_an_integer"%string ∧
   coerce_text (C := Sample.coercions) F_api_port "not_an_integer" = None) ∧
  ∃ e, Sample.init Sample.w_bad = Raise e ∧
       ∀ st, reload_settings Sample.init Sample.w_bad st = (Raise e, st).
Proof.
  split; [split; vm_compute; reflexivity|].
  destruct (proj1 (@rejected_value_fails_construction Sample.coercions)
              Sample.env0 Sample.w_bad F_api_port "not_an_integer"%string
              ltac:(left; vm_compute; reflexivity)
              ltac:(vm_compute; reflexivity))
    as (e & He & _ & _ & _ & Hr).
  exists e. split; [exact He | exact Hr].
Defined.

(** C5 does not hold for every supplied text: a file text that cannot be
    coerced, overridden by the live environment, does not stop
    construction. *)
Lemma overridden_file_value_is_not_validated :
  file_lookup {| os_environ := [("API_PORT", "9001")]%string;
                 dotenv := Some [("api_port", "not_an_integer")]%string |}
              F_api_port = Some "not_an_integer"%string ∧
  coerce_text (C := Sample.coercions) F_api_port "not_an_integer" = None ∧
  ∃ s, Sample.init {| os_environ := [("API_PORT", "9001")]%string;
                      dotenv := Some [("api_port", "not_an_integer")]%string |}
         = Ok s ∧
       api_port s = 9001 ∧
       returned_instance
         (get_settings Sample.init
            {| os_environ := [("API_PORT", "9001")]%string;
               dotenv := Some [("api_port", "not_an_integer")]%string |}
            module_loaded) = Some s.
Proof.
  split; [vm_compute; reflexivity|]. split; [vm_compute; reflexivity|].
  eexists. split; [vm_compute; reflexivity|].
  split; vm_compute; reflexivity.
Qed.

Lemma unknown_keys_are_ignored_witness :
  ¬ names_a_field (lower "UNKNOWN_FIELD") ∧
  Settings_init (C := Sample.coercions) Sample.env0
    {| os_environ := [("HOME", "/root")]%string
                       ++ ("UNKNOWN_FIELD", "foo")%string
                          :: [("API_PORT", "9001")]%string;
       dotenv := None |}
  = Settings_init (C := Sample.coercions) Sample.env0
    {| os_environ := [("HOME", "/root")]%string ++ [("API_PORT", "9001")]%string;
       dotenv := None |}.
Proof.
  assert (¬ names_a_field (lower "UNKNOWN_FIELD")) as Hk
    by (apply (bool_decide_eq_false_1 (names_a_field (lower "UNKNOWN_FIELD")));
        vm_compute; reflexivity).
  split; [exact Hk|].
  apply (proj1 (@unknown_keys_are_ignored Sample.coercions)
           Sample.env0 "UNKNOWN_FIELD"%string "foo"%string
           [("HOME", "/root")]%string [("API_PORT", "9001")]%string
           [] [] [] None Hk).
Defined.

Lemma openai_fields_read_at_class_definition_witness :
  openai_api_key (class_defaults Sample.env0) = "sk-test"%string ∧
  openai_base_url (class_defaults Sample.env0) = EmptyString ∧
  (∀ s, Sample.init Sample.w_plain = Ok s → openai_api_key s = "sk-test"%string) ∧
  (∀ s, Sample.init Sample.w_env_and_file = Ok s →
        openai_api_key s = "sk-test"%string) ∧
  (∃ s, Sample.init Sample.w_plain = Ok s).
Proof.
  destruct (@openai_fields_read_at_class_definition Sample.coercions)
    as (Hkey & _ & _ & Hurl_unset & _ & Hinst & _).
  split; [|split; [|split; [|split]]].
  - exact (Hkey [("HOME", "/root")]%string "sk-test"%string [] ltac:(constructor)).
  - apply Hurl_unset. repeat constructor; discriminate.
  - intros s Hs.
    apply (Hinst [("HOME", "/root")]%string "sk-test"%string [] Sample.w_plain s
             ltac:(constructor) Hs); vm_compute; reflexivity.
  - intros s Hs.
    apply (Hinst [("HOME", "/root")]%string "sk-test"%string []
             Sample.w_env_and_file s ltac:(constructor) Hs);
      vm_compute; reflexivity.
  - eexists. vm_compute; reflexivity.
Defined.

Lemma file_value_when_only_in_file_witness :
  ∃ s, Sample.init Sample.w_env_and_file = Ok s ∧
       log_level s = "debug"%string.
Proof.
  destruct (@file_value_when_only_in_file Sample.coercions Sample.env0
              Sample.w_env_and_file
              [("api_port", "8080")]%string "Log_Level"%string "debug"%string
              [("DND_HOURS", "[1, 2]")]%string F_log_level
              eq_refl eq_refl
              ltac:(repeat constructor; vm_compute; discriminate)
              ltac:(repeat constructor; vm_compute; discriminate))
    as [Hval Hret].
  destruct (Hret ltac:(vm_compute; reflexivity)) as (s & Hs & _).
  exists s. split; [exact Hs|].
  pose proof (Hval s Hs) as Hf. vm_compute in Hf.
  injection Hf as Hf. symmetry. exact Hf.
Defined.

(* ===================================================================== *)
(** ** More on the singleton: what a call can do                          *)
(* ===================================================================== *)

Section SingletonMore.

Variable init : world → result Settings.

(** The three ways a call can go. *)
Lemma run_call_cases c w st :
  (∃ r, c = GetSettings ∧ _settings st = Some r ∧
        run_call init c w st = (Ok (Some r), st)) ∨
  (∃ s, (c = ReloadSettings ∨ _settings st = None) ∧ init w = Ok s ∧
        run_call init c w st =
          (Ok (Some (length (heap st))),
           {| heap := heap st ++ [s];
              _settings := Some (length (heap st)) |})) ∨
  (∃ e, (c = ReloadSettings ∨ _settings st = None) ∧ init w = Raise e ∧
        run_call init c w st = (Raise e, st)).
Proof.
  destruct c; simpl.
  - destruct (_settings st) as [r|] eqn:Hc.
    + left. exists r. by rewrite (get_settings_cached init w st r Hc).
    + right. destruct (init w) as [s|e] eqn:Hi.
      * left. exists s. by rewrite (get_settings_first init w st s Hc Hi); eauto.
      * right. exists e.
        by rewrite (get_settings_first_raises init w st e Hc Hi); eauto.
  - right. destruct (init w) as [s|e] eqn:Hi.
    + left. exists s. by rewrite (reload_settings_ok init w st s Hi); eauto.
    + right. exists e. by rewrite (reload_settings_raises init w st e Hi); eauto.
Qed.

(** What a returning call hands back. *)
Lemma run_call_ok c w st v st' :
  cache_valid st →
  run_call init c w st = (Ok v, st') →
  ∃ r s, v = Some r ∧ _settings st' = Some r ∧ deref st' r = Some s.
Proof.
  intros Hv Hrun.
  pose proof (run_call_valid init c w st Hv) as Hv'. rewrite Hrun in Hv'.
  simpl in Hv'.
  assert (∃ r, v = Some r ∧ _settings st' = Some r) as (r & -> & Hc).
  { destruct (run_call_cases c w st)
      as [(r & _ & Hc & H)|[(s & _ & _ & H)|(e & _ & _ & H)]];
      rewrite H in Hrun; [| |discriminate Hrun];
      injection Hrun as <- <-; eauto. }
  destruct (Hv' r Hc) as [s Hs]. by eauto.
Qed.

(** X1: a call that returns hands back exactly the reference the cache
    holds after it, never [None], and that reference points to an
    instance. *)
Theorem call_returns_cached_instance c w st v st' :
  cache_valid st →
  run_call init c w st = (Ok v, st') →
  ∃ r s, v = Some r ∧ _settings st' = Some r ∧ deref st' r = Some s.
Proof. exact (run_call_ok c w st v st'). Qed.

(** What a raising call leaves behind. *)
Lemma run_call_raise c w st e st' :
  run_call init c w st = (Raise e, st') →
  st' = st ∧ init w = Raise e ∧ (c = GetSettings → _settings st = None).
Proof.
  intros Hrun.
  destruct (run_call_cases c w st)
    as [(r & _ & Hc & H)|[(s & _ & _ & H)|(e' & Hwhy & Hi & H)]];
    rewrite H in Hrun; [discriminate Hrun|discriminate Hrun|].
  injection Hrun as <- <-. split; [done|]. split; [done|].
  intros ->. by destruct Hwhy.
Qed.

(** X2: a call that raises raises what the constructor raised in the world
    of the call and leaves the state exactly as it was; [get_settings]
    raises only on an empty cache. *)
Theorem call_raises_only_what_constructor_raises c w st e st' :
  run_call init c w st = (Raise e, st') →
  st' = st ∧ init w = Raise e ∧ (c = GetSettings → _settings st = None).
Proof. exact (run_call_raise c w st e st'). Qed.

Lemma run_gets_at_most_once ws : ∀ st,
  ∃ v, (length (heap (run_calls init (map (λ w, (GetSettings, w)) ws) st).2)
         ≤ S (length (heap st)))%nat ∧
       Forall (λ res, res = Ok v ∨ ∃ e, res = Raise e)
              (run_calls init (map (λ w, (GetSettings, w)) ws) st).1.
Proof.
  induction ws as [|w ws IH]; intros st; simpl.
  - exists None. split; [lia | constructor].
  - destruct (run_call_cases GetSettings w st)
      as [(r & _ & Hc & H)|[(s & _ & _ & H)|(e & _ & _ & H)]];
      simpl in H; rewrite H.
    + rewrite (run_gets_cached init ws st r Hc). simpl.
      exists (Some r). split; [lia|]. constructor; [by left|].
      apply Forall_fmap, Forall_true. intros ?. by left.
    + rewrite (run_gets_cached init ws
                 {| heap := heap st ++ [s]; _settings := Some (length (heap st)) |}
                 (length (heap st)) eq_refl). simpl.
      exists (Some (length (heap st))). split.
      * rewrite length_app. simpl. lia.
      * constructor; [by left|].
        apply Forall_fmap, Forall_true. intros ?. by left.
    + destruct (IH st) as (v & Hlen & Hall).
      destruct (run_calls init (map (λ w0, (GetSettings, w0)) ws) st)
        as [rs st2]. simpl in *.
      exists v. split; [done|]. constructor; [right; by eexists | done].
Qed.

(** X3: however many times [get_settings] is called, in whatever worlds and
    with whatever failures in between, at most one instance is created and
    all the calls that return hand back the same reference. *)
Theorem get_settings_constructs_at_most_once (ws : list world) (st : state) :
  (length (heap (run_calls init (map (λ w, (GetSettings, w)) ws) st).2)
    ≤ S (length (heap st)))%nat ∧
  ∀ v v',
    Ok v ∈ (run_calls init (map (λ w, (GetSettings, w)) ws) st).1 →
    Ok v' ∈ (run_calls init (map (λ w, (GetSettings, w)) ws) st).1 →
    v = v'.
Proof.
  destruct (run_gets_at_most_once ws st) as (v0 & Hlen & Hall).
  split; [done|]. intros v v' Hin Hin'.
  rewrite Forall_forall in Hall.
  destruct (Hall _ Hin) as [[= ->]|[e He]]; [|discriminate He].
  destruct (Hall _ Hin') as [[= ->]|[e He]]; [|discriminate He].
  reflexivity.
Qed.

(** X4: instances are made by the constructor and by nothing else: whatever
    a reference points to after any calls was there before them, or is what
    the constructor returned in the world of one of the calls. *)
Theorem every_instance_was_constructed (cs : list (call * world)) :
  ∀ st r s,
    deref (run_calls init cs st).2 r = Some s →
    deref st r = Some s ∨ ∃ c w, (c, w) ∈ cs ∧ init w = Ok s.
Proof.
  induction cs as [|[c w] cs IH]; intros st r s; simpl; [by left|].
  destruct (run_call init c w st) as [res st1] eqn:Hrun.
  specialize (IH st1 r s).
  destruct (run_calls init cs st1) as [rs st2]. simpl in *.
  intros Hr. destruct (IH Hr) as [Hst1|(c' & w' & Hin & Hi)].
  2:{ right. exists c', w'. split; [by apply elem_of_cons; right | done]. }
  destruct (run_call_cases c w st)
    as [(r0 & _ & _ & H)|[(s0 & _ & Hi & H)|(e & _ & _ & H)]];
    rewrite H in Hrun; injection Hrun as <- <-; [by left| |by left].
  unfold deref in *. simpl in Hst1.
  apply lookup_app_Some in Hst1 as [Hold|[Hge Hnew]]; [by left|].
  right. exists c, w. split; [by apply elem_of_cons; left|].
  apply list_lookup_singleton_Some in Hnew as [_ <-]. done.
Qed.

(* ===================================================================== *)
(** ** main.py: what the application is configured with                   *)
(* ===================================================================== *)

Lemma getattr_deref {A} st r s (attr : Settings → A) :
  deref st r = Some s → getattr st (Some r) attr = Some (attr s).
Proof. intros H. unfold getattr. simpl. by rewrite H. Qed.

(** What the module body of [main] has bound when it ends. *)
Lemma import_main_done w st m st' :
  cache_valid st →
  import_main init w st = (Done m, st') →
  ∃ r s,
    settings m = Some r ∧ _settings st' = Some r ∧ deref st' r = Some s ∧
    user_middleware (app m)
      = [ {| allow_origins := cors_origins s; allow_credentials := true;
             allow_methods := ["*"%string]; allow_headers := ["*"%string] |} ] ∧
    run_main m st'
      = Some {| uvicorn_app := "shinwa_agent.main:app";
                host := api_host s; port := api_port s; reload := true |} ∧
    (_settings st = None → init w = Ok s).
Proof.
  intros Hv Himp. unfold import_main in Himp.
  destruct (get_settings init w st) as [[v|e] st1] eqn:Hget; [|discriminate Himp].
  destruct (run_call_ok GetSettings w st v st1 Hv Hget)
    as (r & s & -> & Hc & Hs).
  rewrite (getattr_deref st1 r s cors_origins Hs) in Himp.
  injection Himp as <- <-. exists r, s. cbn [settings app user_middleware].
  split; [done|]. split; [done|]. split; [done|]. split; [done|]. split.
  - unfold run_main. cbn [settings].
    by rewrite !(getattr_deref st1 r s _ Hs).
  - intros Hnone.
    destruct (run_call_cases GetSettings w st)
      as [(r0 & _ & Hc0 & _)|[(s0 & _ & Hi & H)|(e & _ & _ & H)]];
      [congruence| |simpl in H; congruence].
    simpl in H. rewrite H in Hget. injection Hget as <- <-.
    unfold deref in Hs. simpl in Hs.
    rewrite lookup_app_r, Nat.sub_diag in Hs by lia. simpl in Hs. congruence.
Qed.

(** X5: when the module body of [main] runs to its end, [settings] is the
    instance the cache holds, and the application is configured from that
    one instance: the CORS origins are its [cors_origins], and
    [uvicorn.run] gets its [api_host] and [api_port].  On an empty cache
    the instance is what the constructor returned in the world of the
    import. *)
Theorem import_main_snapshot w st m st' :
  cache_valid st →
  import_main init w st = (Done m, st') →
  ∃ r s,
    settings m = Some r ∧ _settings st' = Some r ∧ deref st' r = Some s ∧
    user_middleware (app m)
      = [ {| allow_origins := cors_origins s; allow_credentials := true;
             allow_methods := ["*"%string]; allow_headers := ["*"%string] |} ] ∧
    run_main m st'
      = Some {| uvicorn_app := "shinwa_agent.main:app";
                host := api_host s; port := api_port s; reload := true |} ∧
    (_settings st = None → init w = Ok s).
Proof. exact (import_main_done w st m st'). Qed.

(** X6: the module body of [main] either runs to its end or fails with what
    the constructor raised in the world of the import, on an empty cache,
    leaving the state of the settings module as it was; an attribute read
    never fails. *)
Theorem import_main_fails_only_with_constructor w st :
  cache_valid st →
  (∃ m st', import_main init w st = (Done m, st')) ∨
  (∃ e, import_main init w st = (Failed (ConstructionError e), st) ∧
        init w = Raise e ∧ _settings st = None).
Proof.
  intros Hv. unfold import_main.
  destruct (get_settings init w st) as [[v|e] st1] eqn:Hget.
  - left.
    destruct (run_call_ok GetSettings w st v st1 Hv Hget)
      as (r & s & -> & Hc & Hs).
    rewrite (getattr_deref st1 r s cors_origins Hs). by eauto.
  - right.
    destruct (run_call_raise GetSettings w st e st1 Hget)
      as (-> & Hi & Hc).
    exists e. by auto.
Qed.

(** X7: [main.settings] is bound once.  Whatever calls are made after the
    import, every attribute read through it gives what it gave at the
    import, so [uvicorn.run] would get the same host and port; and after a
    [reload_settings] that returns, [get_settings()] is a different
    instance from [main.settings]. *)
Theorem main_settings_not_refreshed_by_reload w0 st m st1 cs :
  cache_valid st →
  import_main init w0 st = (Done m, st1) →
  (∀ A (attr : Settings → A),
     getattr (run_calls init cs st1).2 (settings m) attr
       = getattr st1 (settings m) attr) ∧
  run_main m (run_calls init cs st1).2 = run_main m st1 ∧
  (∀ w1 s1, init w1 = Ok s1 →
     ∃ r1 st3,
       reload_settings init w1 (run_calls init cs st1).2 = (Ok (Some r1), st3) ∧
       settings m ≠ Some r1 ∧
       deref st3 r1 = Some s1 ∧
       (∀ w, get_settings init w st3 = (Ok (Some r1), st3)) ∧
       run_main m st3 = run_main m st1).
Proof.
  intros Hv Himp.
  destruct (import_main_done w0 st m st1 Hv Himp)
    as (r & s & Hm & Hc & Hs & _).
  assert (∀ st2, (∃ tl, heap st2 = heap st1 ++ tl) →
                 ∀ A (attr : Settings → A),
                   getattr st2 (settings m) attr = getattr st1 (settings m) attr)
    as Hkeep.
  { intros st2 [tl Htl] A attr. rewrite Hm.
    rewrite (getattr_deref st1 r s attr Hs). apply getattr_deref.
    unfold deref. rewrite Htl. by apply lookup_app_l_Some. }
  assert (∀ st2, (∃ tl, heap st2 = heap st1 ++ tl) →
                 run_main m st2 = run_main m st1) as Hkeep_run.
  { intros st2 Hst2. unfold run_main. by rewrite !(Hkeep st2 Hst2). }
  pose proof (run_calls_heap init cs st1) as [tl Htl].
  split; [by apply Hkeep; eauto|]. split; [by apply Hkeep_run; eauto|].
  intros w1 s1 Hi1.
  set (st2 := (run_calls init cs st1).2) in *.
  exists (length (heap st2)), {| heap := heap st2 ++ [s1];
                                 _settings := Some (length (heap st2)) |}.
  split; [by apply reload_settings_ok|]. split; [|split; [|split]].
  - rewrite Hm. intros [= ->]. unfold deref in Hs.
    apply lookup_lt_Some in Hs. rewrite Htl, length_app in Hs. lia.
  - unfold deref. simpl. by rewrite lookup_app_r, Nat.sub_diag by lia.
  - intros w. by apply get_settings_cached.
  - apply Hkeep_run. simpl. exists (tl ++ [s1]). by rewrite Htl, app_assoc.
Qed.

End SingletonMore.

(* ===================================================================== *)
(** ** More on the resolution                                             *)
(* ===================================================================== *)

(** A name bound in the environment is bound under its lowered form. *)
Lemma dict_of_id_lower (env : environ) k v :
  dict_of id env !! k = Some v → is_Some (dict_of lower env !! lower k).
Proof.
  revert v. induction env as [|[k0 v0] env IH] using rev_ind; intros v.
  - unfold dict_of. simpl. by rewrite lookup_empty.
  - unfold dict_of in *. rewrite !foldl_app. simpl.
    destruct (decide (k0 = k)) as [->|Hne].
    + intros _. rewrite lookup_insert_eq. by eexists.
    + rewrite (lookup_insert_ne _ k0 k) by done. intros Hk.
      destruct (decide (lower k0 = lower k)) as [->|Hne'].
      * rewrite lookup_insert_eq. by eexists.
      * rewrite lookup_insert_ne by done. by apply (IH v).
Qed.

Lemma get_settings_ext (init1 init2 : world → result Settings) w st :
  init1 w = init2 w → get_settings init1 w st = get_settings init2 w st.
Proof.
  intros H. unfold get_settings, bind, Settings_call. by rewrite H.
Qed.

Section ResolutionMore.

Context {C : Coercions}.

(** For a field that is not list-typed, validation gets the text itself. *)
Lemma raw_input_simple w f :
  field_is_complex f = false →
  raw_input w f = RStr <$> (env_lookup w f ∪ file_lookup w f).
Proof.
  intros Hf. unfold raw_input.
  destruct (env_lookup w f) as [v|]; cbn.
  - rewrite (prepare_simple f v Hf).
    destruct (file_lookup w f) as [v'|]; cbn; [|done].
    by rewrite (prepare_simple f v' Hf).
  - destruct (file_lookup w f) as [v|]; cbn; [|done].
    by rewrite (prepare_simple f v Hf).
Qed.

Lemma str_field_simple f : annotation f = TStr → field_is_complex f = false.
Proof. intros H. unfold field_is_complex. by rewrite H. Qed.

(** X8: no text makes a field annotated [str] fail: when the texts bound
    to the fields annotated [int], [bool] or a list are acceptable,
    construction returns, whatever [proactive_mode], [log_level] and the
    other [str] fields are bound to. *)
Theorem str_fields_accept_any_text env0 w :
  (∀ f, annotation f ≠ TStr →
        accepts f (env_lookup w f) = true ∧
        accepts f (file_lookup w f) = true) →
  ∃ s, Settings_init env0 w = Ok s.
Proof.
  intros Hother. apply Settings_init_returns, acceptable_intro. intros f.
  destruct (annotation f) eqn:Hstr;
    try (apply Hother; rewrite Hstr; discriminate).
  assert (∀ o, accepts f o = true) as Hany.
  { intros [v|]; [|done]. cbn [accepts]. apply bool_decide_eq_true.
    unfold coerce_text.
    rewrite (prepare_simple f v (str_field_simple f Hstr)). cbn.
    rewrite Hstr. by eexists. }
  by split.
Qed.

(** X9: a field annotated [str] holds the text of the live environment,
    else the text of the file, else the class default, and holds it as it
    was written: the key is matched whatever its case, the value is neither
    trimmed nor changed in case. *)
Theorem string_fields_are_taken_verbatim env0 w s f :
  Settings_init env0 w = Ok s →
  annotation f = TStr →
  get_field f s = match env_lookup w f ∪ file_lookup w f with
                  | Some v => VStr v
                  | None => get_field f (class_defaults env0)
                  end.
Proof.
  intros Hs Hstr.
  pose proof (Settings_init_Ok env0 w s Hs f) as Hf.
  rewrite (raw_input_simple w f (str_field_simple f Hstr)) in Hf.
  rewrite Hstr in Hf.
  destruct (env_lookup w f ∪ file_lookup w f); cbn in Hf; congruence.
Qed.

(** X10: the fields are resolved one by one: two worlds that bind a field
    to the same texts give it the same value, whatever they do to the other
    fields. *)
Theorem fields_resolve_independently env0 w1 w2 s1 s2 f :
  Settings_init env0 w1 = Ok s1 →
  Settings_init env0 w2 = Ok s2 →
  env_lookup w1 f = env_lookup w2 f →
  file_lookup w1 f = file_lookup w2 f →
  get_field f s1 = get_field f s2.
Proof.
  intros H1 H2 He Hf.
  pose proof (Settings_init_Ok env0 w1 s1 H1 f) as G1.
  pose proof (Settings_init_Ok env0 w2 s2 H2 f) as G2.
  unfold raw_input in G1, G2. rewrite He, Hf in G1. congruence.
Qed.

(** X11: an environment variable whose name is the field name in any case,
    and which no later variable of such a name follows, decides the field
    whatever the file says: every instance construction returns holds the
    value of its text, and construction returns when every supplied text is
    acceptable. *)
Theorem environment_key_in_any_case env0 w e1 k v e2 f :
  os_environ w = e1 ++ (k, v) :: e2 →
  lower k = lower (field_name f) →
  Forall (λ kv, lower kv.1 ≠ lower (field_name f)) e2 →
  (∀ s, Settings_init env0 w = Ok s →
        coerce_text f v = Some (get_field f s)) ∧
  (acceptable w = true → ∃ s, Settings_init env0 w = Ok s).
Proof.
  intros Henv Hk He2. split.
  - intros s Hs. apply (resolved_from_env env0 w s f v Hs).
    unfold env_lookup, parse_env_vars. rewrite Henv. by apply dict_of_last.
  - apply Settings_init_returns.
Qed.

Lemma model_validate_same_fields d1 d2 (data : gmap string raw) :
  (∀ f, validate_field d1 data f = validate_field d2 data f) →
  model_validate d1 data = model_validate d2 data.
Proof.
  intros Hv. unfold model_validate. rewrite (build_ext _ _ Hv).
  destruct (build (validate_field d2 data)); [done|].
  do 2 f_equal. apply list_filter_iff. intros f. by rewrite Hv.
Qed.

(** X12: when the class is defined and an instance constructed in the same
    environment, as at process start, the two [os.getenv] defaults cannot be
    observed: construction gives what it would give with empty-string
    defaults, and so do [get_settings] and the module body of [main]. *)
Theorem getenv_defaults_unobservable_at_startup (w : world) :
  Settings_init (os_environ w) w = Settings_init [] w ∧
  (∀ st, get_settings (Settings_init (os_environ w)) w st
         = get_settings (Settings_init []) w st) ∧
  (∀ st, import_main (Settings_init (os_environ w)) w st
         = import_main (Settings_init []) w st).
Proof.
  assert (Settings_init (os_environ w) w = Settings_init [] w) as Heq.
  { unfold Settings_init.
    destruct (env_settings _) as [es|err] eqn:He; [|done].
    destruct (dotenv_settings _) as [ds|err] eqn:Hd; [|done].
    apply model_validate_same_fields. intros f. unfold validate_field.
    destruct ((es ∪ ds) !! field_name f) as [r|] eqn:Hm; [done|].
    f_equal.
    assert (∀ g key, field_name g = lower key → field_is_complex g = false →
                     (es ∪ ds) !! field_name g = None →
                     getenv (os_environ w) key EmptyString = EmptyString)
      as Hunset.
    { intros g key Hg Hgc Hnone. unfold getenv.
      destruct (dict_of id (os_environ w) !! key) as [x|] eqn:Hx; [|done].
      exfalso. destruct (dict_of_id_lower _ _ _ Hx) as [y Hy].
      apply lookup_union_None_1 in Hnone as [Hnone _].
      rewrite (env_settings_fields _ _ g He) in Hnone.
      unfold parse_env_vars in Hnone.
      rewrite env_name_field_name, Hg, Hy in Hnone. cbn in Hnone.
      by rewrite (prepare_simple g y Hgc) in Hnone. }
    destruct f; try reflexivity; cbn [get_field class_defaults openai_api_key
                                      openai_base_url]; f_equal.
    - by apply (Hunset F_openai_api_key).
    - by apply (Hunset F_openai_base_url). }
  split; [done|]. split.
  - intros st. by apply get_settings_ext.
  - intros st. unfold import_main. by rewrite (get_settings_ext _ _ w st Heq).
Qed.

End ResolutionMore.

(* ===================================================================== *)
(** ** The further properties on concrete inputs                          *)
(* ===================================================================== *)

Lemma call_returns_cached_instance_witness :
  ∃ v st',
    run_call Sample.init ReloadSettings Sample.w_env_and_file module_loaded
      = (Ok v, st') ∧
    ∃ r s, v = Some r ∧ _settings st' = Some r ∧ deref st' r = Some s.
Proof.
  eexists _, _. split; [vm_compute; reflexivity|].
  apply (call_returns_cached_instance Sample.init ReloadSettings
           Sample.w_env_and_file module_loaded _ _ module_loaded_valid).
  vm_compute; reflexivity.
Defined.

Lemma call_raises_only_what_constructor_raises_witness :
  run_call Sample.init GetSettings Sample.w_bad module_loaded
    = (Raise (ValidationError [F_api_port]), module_loaded) ∧
  Sample.init Sample.w_bad = Raise (ValidationError [F_api_port]).
Proof.
  split; [vm_compute; reflexivity|].
  apply (call_raises_only_what_constructor_raises Sample.init GetSettings
           Sample.w_bad module_loaded (ValidationError [F_api_port])
           module_loaded).
  vm_compute; reflexivity.
Defined.

Lemma every_instance_was_constructed_witness :
  deref (run_calls Sample.init
           [(GetSettings, Sample.w_bad); (GetSettings, Sample.w_plain)]
           module_loaded).2 0%nat
    = Some (class_defaults Sample.env0) ∧
  (deref module_loaded 0%nat = Some (class_defaults Sample.env0) ∨
   ∃ c w, (c, w) ∈ [(GetSettings, Sample.w_bad); (GetSettings, Sample.w_plain)] ∧
          Sample.init w = Ok (class_defaults Sample.env0)).
Proof.
  split; [vm_compute; reflexivity|].
  apply (every_instance_was_constructed Sample.init
           [(GetSettings, Sample.w_bad); (GetSettings, Sample.w_plain)]
           module_loaded 0%nat).
  vm_compute; reflexivity.
Defined.

Lemma import_main_snapshot_witness :
  ∃ m st',
    import_main Sample.init Sample.w_env_and_file module_loaded = (Done m, st') ∧
    ∃ r s, settings m = Some r ∧ _settings st' = Some r ∧
           deref st' r = Some s ∧ port <$> run_main m st' = Some (api_port s).
Proof.
  eexists _, _. split; [vm_compute; reflexivity|].
  destruct (import_main_snapshot Sample.init Sample.w_env_and_file
              module_loaded _ _ module_loaded_valid
              ltac:(vm_compute; reflexivity))
    as (r & s & H1 & H2 & H3 & _ & H5 & _).
  exists r, s. split; [exact H1|]. split; [exact H2|]. split; [exact H3|].
  rewrite H5. reflexivity.
Defined.

Lemma import_main_fails_only_with_constructor_witness :
  cache_valid module_loaded ∧
  ((∃ m st', import_main Sample.init Sample.w_bad module_loaded = (Done m, st')) ∨
   (∃ e, import_main Sample.init Sample.w_bad module_loaded
           = (Failed (ConstructionError e), module_loaded) ∧
         Sample.init Sample.w_bad = Raise e ∧ _settings module_loaded = None)).
Proof.
  split; [exact module_loaded_valid|].
  apply (import_main_fails_only_with_constructor Sample.init Sample.w_bad
           module_loaded module_loaded_valid).
Defined.

Lemma main_settings_not_refreshed_by_reload_witness :
  ∃ m st1,
    import_main Sample.init Sample.w_plain module_loaded = (Done m, st1) ∧
    run_main m (run_calls Sample.init
                  [(ReloadSettings, Sample.w_env_and_file)] st1).2
      = run_main m st1.
Proof.
  eexists _, _. split; [vm_compute; reflexivity|].
  apply (main_settings_not_refreshed_by_reload Sample.init Sample.w_plain
           module_loaded _ _ [(ReloadSettings, Sample.w_env_and_file)]
           module_loaded_valid).
  vm_compute; reflexivity.
Defined.

Lemma str_fields_accept_any_text_witness :
  ∃ s, Sample.init
         {| os_environ := [("PROACTIVE_MODE", "none of the three");
                           ("API_PORT", "9001")]%string;
            dotenv := Some [("log_level", "?")]%string |} = Ok s.
Proof.
  apply (@str_fields_accept_any_text Sample.coercions Sample.env0).
  intros f Hf.
  destruct f; try (exfalso; apply Hf; reflexivity);
    split; vm_compute; reflexivity.
Defined.

Lemma string_fields_are_taken_verbatim_witness :
  ∃ s, Sample.init Sample.w_env_and_file = Ok s ∧
       get_field F_log_level s = VStr "debug".
Proof.
  eexists. split; [vm_compute; reflexivity|].
  etransitivity.
  - apply (@string_fields_are_taken_verbatim Sample.coercions Sample.env0
             Sample.w_env_and_file _ F_log_level);
      [vm_compute; reflexivity | reflexivity].
  - vm_compute; reflexivity.
Defined.

Lemma fields_resolve_independently_witness :
  ∃ s1 s2,
    Sample.init Sample.w_env_and_file = Ok s1 ∧
    Sample.init {| os_environ := [("API_PORT", "9001"); ("LOG_LEVEL", "warn")]%string;
                   dotenv := Some [("api_port", "8080")]%string |} = Ok s2 ∧
    get_field F_api_port s1 = get_field F_api_port s2.
Proof.
  eexists _, _. split; [vm_compute; reflexivity|].
  split; [vm_compute; reflexivity|].
  apply (@fields_resolve_independently Sample.coercions Sample.env0
           Sample.w_env_and_file
           {| os_environ := [("API_PORT", "9001"); ("LOG_LEVEL", "warn")]%string;
              dotenv := Some [("api_port", "8080")]%string |});
    vm_compute; reflexivity.
Defined.

Lemma environment_key_in_any_case_witness :
  ∃ s, Sample.init Sample.w_env_and_file = Ok s ∧
       coerce_text (C := Sample.coercions) F_api_port "9001"
         = Some (get_field F_api_port s).
Proof.
  eexists. split; [vm_compute; reflexivity|].
  apply (proj1 (@environment_key_in_any_case Sample.coercions Sample.env0
                  Sample.w_env_and_file [("HOME", "/root")]%string
                  "API_PORT"%string "9001"%string [] F_api_port
                  eq_refl eq_refl ltac:(constructor))).
  vm_compute; reflexivity.
Defined.
